(** * AEGIS v2: the pipeline job lifecycle (API producer and queue worker)

    A shallow embedding of [src/app/main.py] (the startup hook and the
    health, onboarding, enqueue and manifest endpoints) and of
    [src/worker.py] (the connections, the job processing step and the
    polling loop), followed by the properties of the run state machine,
    the manifest store, the queue contract and the endpoints. *)

From stdpp Require Import gmap strings list fin_maps.

Set Warnings "-register-all,-clear-no-such-hyp".

Open Scope string_scope.

(** ** Data *)

(** What [json.dumps] is given and [json.loads] gives back.  The text
    encoding itself is not modelled: a value stands for its serialisation. *)
Inductive Json : Type :=
  | JNull
  | JBool (b : bool)
  | JInt (n : Z)
  | JStr (s : string)
  | JList (l : list Json)
  | JDict (kv : list (string * Json)).

(** A row of [aegis.manifest_v2_index].  The columns are the ones the
    statements of main.py and worker.py name; a column a statement leaves
    out at INSERT is NULL ([None]). *)
Record IndexRow : Type := mkIndexRow {
  ix_tenant_id : string;
  ix_store_id : string;
  ix_run_id : string;
  ix_status : string;
  ix_deploy_ready : option bool;
  ix_created_at : nat;
  ix_updated_at : option nat
}.

(** A row of [aegis.manifest_v2_modules]. *)
Record ModuleRow : Type := mkModuleRow {
  mod_run_id : string;
  mod_name : string;
  mod_data : Json
}.

(** The dict [run_pipeline] serialises onto the queue and
    [process_pipeline_job] reads back (main.py:190-195, worker.py:27-29).
    The three identifiers are [str] fields of [PipelineRequest]. *)
Record Job : Type := mkJob {
  job_run_id : string;
  job_tenant_id : string;
  job_store_id : string;
  job_product_data : Json
}.

(** Postgres and Redis: the state both processes share. *)
Record Store : Type := mkStore {
  manifest_v2_index : list IndexRow;
  manifest_v2_modules : list ModuleRow;
  pipeline_queue : list Job          (* the list "aegis:pipeline:queue", head = left *)
}.

Inductive Level : Type := info | warning | error.

Inductive LogVal : Type :=
  | VStr (s : string)
  | VBool (b : bool)
  | VNat (n : nat).

Record LogEntry : Type := mkLog {
  log_level : Level;
  log_event : string;
  log_fields : list (string * LogVal)
}.

(** What one process sees and does: the shared store, the wall clock that
    [NOW()] reads and [asyncio.sleep] advances, the structlog output, and
    [commits], the successive contents of the shared store, one per
    statement that changed it (no statement runs inside a transaction,
    so each is visible to the other process as soon as it returns). *)
Record World : Type := mkWorld {
  store : Store;
  clock : nat;
  log : list LogEntry;
  commits : list Store
}.

(** ** Exceptions and the effect monad *)

(** [CancelledError] is [asyncio.CancelledError], raised in a task that is
    cancelled while it waits; it derives from [BaseException], not from
    [Exception].  The others are [Exception]s. *)
Inductive Exn : Type :=
  | UniqueViolationError (table : string)
  | ConnectionError (site : string)
  | RuntimeError (msg : string)
  | AttributeError (msg : string)
  | CancelledError.

Definition exn_str (e : Exn) : string :=
  match e with
  | UniqueViolationError t => "duplicate key value violates unique constraint on " +:+ t
  | ConnectionError s => "connection error at " +:+ s
  | RuntimeError m => m
  | AttributeError m => m
  | CancelledError => EmptyString
  end.

(** [isinstance(e, Exception)] *)
Definition is_Exception (e : Exn) : bool :=
  match e with
  | CancelledError => false
  | _ => true
  end.

Inductive Result (A : Type) : Type :=
  | Return (a : A)
  | Raise (e : Exn).
Arguments Return {A} a.
Arguments Raise {A} e.

Definition M (A : Type) : Type := World → Result A * World.

Definition raise {A} (e : Exn) : M A := λ w, (Raise e, w).

#[global] Instance M_ret : MRet M := λ A a w, (Return a, w).

#[global] Instance M_bind : MBind M := λ A B k m w,
  match m w with
  | (Return a, w') => k a w'
  | (Raise e, w') => (Raise e, w')
  end.

(** [try: body except Exception as e: handler e].  What is not an
    [Exception] passes through. *)
Definition try_except {A} (body : M A) (handler : Exn → M A) : M A :=
  λ w, match body w with
       | (Return a, w') => (Return a, w')
       | (Raise e, w') => if is_Exception e then handler e w' else (Raise e, w')
       end.

(** An awaited call to the database or to Redis, which the environment
    may fail: the driver then raises an [Exception]. *)
Definition await (fails : bool) (site : string) : M unit :=
  if fails then raise (ConnectionError site) else mret tt.

Definition logger (lvl : Level) (ev : string) (fs : list (string * LogVal)) : M unit :=
  λ w, (Return tt,
        mkWorld (store w) (clock w) (log w ++ [mkLog lvl ev fs]) (commits w)).

Definition advance_clock (secs : nat) : M unit :=
  λ w, (Return tt, mkWorld (store w) (clock w + secs) (log w) (commits w)).

(** [await asyncio.sleep(secs)]: it raises only when the task is
    cancelled while it sleeps. *)
Definition asyncio_sleep (cancelled : bool) (secs : nat) : M unit :=
  (if cancelled then raise CancelledError else mret tt) ;; advance_clock secs.

(** ** The SQL statements *)

Definition set_status (st : string) (now : nat) (r : IndexRow) : IndexRow :=
  mkIndexRow (ix_tenant_id r) (ix_store_id r) (ix_run_id r) st
             (ix_deploy_ready r) (ix_created_at r) (Some now).

Definition set_completed (dr : bool) (now : nat) (r : IndexRow) : IndexRow :=
  mkIndexRow (ix_tenant_id r) (ix_store_id r) (ix_run_id r) "completed"
             (Some dr) (ix_created_at r) (Some now).

(** [UPDATE aegis.manifest_v2_index SET ... WHERE run_id = $1]: every row
    whose run id matches is rewritten; none matching is not an error. *)
Definition update_where (run_id : string) (f : IndexRow → IndexRow)
    (ix : list IndexRow) : list IndexRow :=
  (λ r, if decide (ix_run_id r = run_id) then f r else r) <$> ix.

Definition has_run (run_id : string) (ix : list IndexRow) : bool :=
  bool_decide (run_id ∈ ix_run_id <$> ix).

Definition has_module (run_id name : string) (ms : list ModuleRow) : bool :=
  bool_decide ((run_id, name) ∈ (λ m, (mod_run_id m, mod_name m)) <$> ms).

Inductive Sql : Type :=
  | UPDATE_index_processing (run_id : string)                   (* worker.py:37 *)
  | INSERT_module (run_id name : string) (data : Json)          (* worker.py:69,79,89 *)
  | UPDATE_index_completed (run_id : string) (deploy_ready : bool) (* worker.py:99 *)
  | UPDATE_index_failed (run_id : string)                       (* worker.py:112 *)
  | INSERT_index_queued (tenant_id store_id run_id : string).   (* main.py:178 *)

(** Modelled from the spec: the table declarations (the DDL of schema
    [aegis]) are not part of the sources.  Section 6 keys the Run Index by
    run id and the Manifest table by (run_id, module_name); sections 4.2
    and 4.4 make an INSERT of an existing key fail.  No other constraint
    is described, so none is enforced. *)
Definition exec_sql (q : Sql) (now : nat) (s : Store) : Exn + Store :=
  match q with
  | UPDATE_index_processing r =>
      inr (mkStore (update_where r (set_status "processing" now) (manifest_v2_index s))
                   (manifest_v2_modules s) (pipeline_queue s))
  | INSERT_module r name data =>
      if has_module r name (manifest_v2_modules s)
      then inl (UniqueViolationError "manifest_v2_modules")
      else inr (mkStore (manifest_v2_index s)
                        (manifest_v2_modules s ++ [mkModuleRow r name data])
                        (pipeline_queue s))
  | UPDATE_index_completed r dr =>
      inr (mkStore (update_where r (set_completed dr now) (manifest_v2_index s))
                   (manifest_v2_modules s) (pipeline_queue s))
  | UPDATE_index_failed r =>
      inr (mkStore (update_where r (set_status "failed" now) (manifest_v2_index s))
                   (manifest_v2_modules s) (pipeline_queue s))
  | INSERT_index_queued t st r =>
      if has_run r (manifest_v2_index s)
      then inl (UniqueViolationError "manifest_v2_index")
      else inr (mkStore (manifest_v2_index s ++ [mkIndexRow t st r "queued" None now None])
                        (manifest_v2_modules s) (pipeline_queue s))
  end.

(** A statement's effect becomes the shared store and is recorded. *)
Definition commit (s : Store) : M unit :=
  λ w, (Return tt, mkWorld s (clock w) (log w) (commits w ++ [s])).

(** The statement runs at the current time; a key violation raises and
    leaves the store as it was. *)
Definition run_sql (q : Sql) : M unit :=
  λ w, match exec_sql q (clock w) (store w) with
       | inl e => (Raise e, w)
       | inr s => commit s w
       end.

(** [await conn.execute(q, ...)] outside any transaction block. *)
Definition conn_execute (fails : bool) (site : string) (q : Sql) : M unit :=
  await fails site ;; run_sql q.

(** [async with db_pool.acquire() as conn:] *)
Definition db_pool_acquire (fails : bool) (site : string) : M unit :=
  await fails site.

(** LPUSH: the message becomes the leftmost of the list. *)
Definition push_left (msg : Job) : M unit :=
  λ w, commit (mkStore (manifest_v2_index (store w)) (manifest_v2_modules (store w))
                       (msg :: pipeline_queue (store w))) w.

(** [await redis_client.lpush("aegis:pipeline:queue", msg)] *)
Definition redis_lpush (fails : bool) (site : string) (msg : Job) : M unit :=
  await fails site ;; push_left msg.

(** BRPOP: the rightmost message, or [None] once the timeout has passed. *)
Definition pop_right (timeout : nat) : M (option Job) :=
  λ w, match reverse (pipeline_queue (store w)) with
       | [] => (Return None, mkWorld (store w) (clock w + timeout) (log w) (commits w))
       | msg :: rest =>
           (Return (Some msg),
            (commit (mkStore (manifest_v2_index (store w))
                             (manifest_v2_modules (store w)) (reverse rest)) w).2)
       end.

(** [await redis_client.brpop("aegis:pipeline:queue", timeout=5)] *)
Definition redis_brpop (fails : bool) (site : string) (timeout : nat) : M (option Job) :=
  await fails site ;; pop_right timeout.

(** ** src/worker.py *)

(** The awaited calls of [process_pipeline_job] and [worker_loop], by
    source line.  An oracle [WorkerAwait → bool] says which of them raise
    in one iteration: a call to the database or to Redis raises an
    [Exception] of its driver, a sleep raises [CancelledError]. *)
Inductive WorkerAwait : Type :=
  | acquire_35 | execute_36
  | sleep_43 | sleep_47 | sleep_55 | sleep_59
  | acquire_65 | execute_67 | execute_77 | execute_87 | execute_97
  | acquire_110 | execute_111
  | brpop_123 | sleep_132.

Definition no_raise : WorkerAwait → bool := λ _, false.

Definition ready_to_deploy_path (tenant_id store_id run_id : string) : string :=
  "s3://aegis/" +:+ tenant_id +:+ "/" +:+ store_id +:+ "/" +:+ run_id.

Definition audit_data : Json :=
  JDict [("checks_passed", JInt 12); ("checks_failed", JInt 0)].

Definition decision_data (deploy_ready : bool) (reasons : list string) : Json :=
  JDict [("deploy_ready", JBool deploy_ready); ("reasons", JList (JStr <$> reasons))].

Definition deployment_data (tenant_id store_id run_id : string) : Json :=
  JDict [("ready_to_deploy_path", JStr (ready_to_deploy_path tenant_id store_id run_id))].

Definition process_pipeline_job (raises : WorkerAwait → bool) (job_data : Job) : M unit :=
  let run_id := job_run_id job_data in
  let tenant_id := job_tenant_id job_data in
  let store_id := job_store_id job_data in
  logger info "pipeline_start"
    [("run_id", VStr run_id); ("tenant_id", VStr tenant_id); ("store_id", VStr store_id)] ;;
  try_except
    ((* Update status to processing *)
     db_pool_acquire (raises acquire_35) "worker.py:35" ;;
     conn_execute (raises execute_36) "worker.py:36" (UPDATE_index_processing run_id) ;;
     (* PHASE 1: Prefetch (simulated) *)
     logger info "phase_1_prefetch" [("run_id", VStr run_id)] ;;
     asyncio_sleep (raises sleep_43) 2 ;;
     (* PHASE 2: Hard Block Validations *)
     logger info "phase_2_hard_block" [("run_id", VStr run_id)] ;;
     asyncio_sleep (raises sleep_47) 3 ;;
     (* Check hard gates (simplified) *)
     let deploy_ready := true in
     let reasons : list string := [] in
     (* PHASE 3: Assets Generation *)
     logger info "phase_3_assets" [("run_id", VStr run_id)] ;;
     asyncio_sleep (raises sleep_55) 5 ;;
     (* PHASE 4: Soft Checks (non-blocking) *)
     logger info "phase_4_soft_checks" [("run_id", VStr run_id)] ;;
     asyncio_sleep (raises sleep_59) 2 ;;
     (* PHASE 5: Manifest Build *)
     logger info "phase_5_manifest" [("run_id", VStr run_id)] ;;
     db_pool_acquire (raises acquire_65) "worker.py:65" ;;
     conn_execute (raises execute_67) "worker.py:67"
       (INSERT_module run_id "audit" audit_data) ;;
     conn_execute (raises execute_77) "worker.py:77"
       (INSERT_module run_id "decision" (decision_data deploy_ready reasons)) ;;
     conn_execute (raises execute_87) "worker.py:87"
       (INSERT_module run_id "deployment" (deployment_data tenant_id store_id run_id)) ;;
     conn_execute (raises execute_97) "worker.py:97"
       (UPDATE_index_completed run_id deploy_ready) ;;
     logger info "pipeline_complete"
       [("run_id", VStr run_id); ("deploy_ready", VBool deploy_ready)])
    (λ e,
     logger error "pipeline_failed" [("run_id", VStr run_id); ("error", VStr (exn_str e))] ;;
     db_pool_acquire (raises acquire_110) "worker.py:110" ;;
     conn_execute (raises execute_111) "worker.py:111" (UPDATE_index_failed run_id)).

(** One turn of the [while True] of [worker_loop]. *)
Definition worker_iteration (raises : WorkerAwait → bool) : M unit :=
  try_except
    (result ← redis_brpop (raises brpop_123) "worker.py:123" 5;
     match result with
     | Some job_data => process_pipeline_job raises job_data
     | None => mret tt
     end)
    (λ e,
     logger error "worker_error" [("error", VStr (exn_str e))] ;;
     asyncio_sleep (raises sleep_132) 5).

(** [worker_loop], for as many turns as oracles are given. *)
Fixpoint worker_loop (oracles : list (WorkerAwait → bool)) : M unit :=
  match oracles with
  | [] => mret tt
  | raises :: rest => worker_iteration raises ;; worker_loop rest
  end.

(** ** src/app/main.py *)

Record Env : Type := mkEnv {
  DATABASE_URL : option string;
  REDIS_URL : option string
}.

(** The module-level handles [db_pool] and [redis_client]. *)
Record Globals : Type := mkGlobals {
  db_pool : option string;
  redis_client : option string
}.

Inductive ApiAwait : Type :=
  | create_pool_44 | from_url_55
  | acquire_175 | execute_176 | lpush_188.

Definition api_ok : ApiAwait → bool := λ _, false.

(** Python's truth value of [os.getenv(...)]: unset and empty are false. *)
Definition truthy (v : option string) : bool :=
  match v with
  | Some s => negb (bool_decide (s = ""))
  | None => false
  end.

Definition startup (raises : ApiAwait → bool) (env : Env) : M Globals :=
  if negb (truthy (DATABASE_URL env)) then raise (RuntimeError "DATABASE_URL not set")
  else
    await (raises create_pool_44) "main.py:44" ;;
    logger info "postgres_connected" [("pool_size", VNat 10)] ;;
    if truthy (REDIS_URL env) then
      await (raises from_url_55) "main.py:55" ;;
      logger info "redis_connected" [] ;;
      mret (mkGlobals (DATABASE_URL env) (REDIS_URL env))
    else
      logger warning "redis_not_configured" [] ;;
      mret (mkGlobals (DATABASE_URL env) None).

Record PipelineRequest : Type := mkPipelineRequest {
  req_tenant_id : string;
  req_store_id : string;
  req_product_data : Json
}.

Record Response : Type := mkResponse {
  resp_run_id : string;
  resp_status : string
}.

(** [POST /api/v2/pipeline/run]; [uuid] is what [str(uuid.uuid4())]
    returns in this call. *)
Definition run_pipeline (g : Globals) (raises : ApiAwait → bool) (uuid : string)
    (req : PipelineRequest) : M Response :=
  logger info "pipeline_enqueue"
    [("tenant_id", VStr (req_tenant_id req)); ("store_id", VStr (req_store_id req))] ;;
  let run_id := uuid in
  (* Store in manifest_v2_index *)
  match db_pool g with
  | None => raise (AttributeError "'NoneType' object has no attribute 'acquire'")
  | Some _ =>
      db_pool_acquire (raises acquire_175) "main.py:175" ;;
      conn_execute (raises execute_176) "main.py:176"
        (INSERT_index_queued (req_tenant_id req) (req_store_id req) run_id)
  end ;;
  (* Enqueue to Redis *)
  match redis_client g with
  | Some _ =>
      redis_lpush (raises lpush_188) "main.py:188"
        (mkJob run_id (req_tenant_id req) (req_store_id req) (req_product_data req))
  | None => mret tt
  end ;;
  logger info "pipeline_queued" [("run_id", VStr run_id)] ;;
  mret (mkResponse run_id "queued").

(** The module mapping of [get_manifest] (main.py:222-236): the rows of
    the run, then [{m["module_name"]: m["module_data"] for m in modules}],
    where a later row of the same name replaces an earlier one. *)
Definition fetch_modules (run_id : string) (s : Store) : list ModuleRow :=
  filter (λ m, mod_run_id m = run_id) (manifest_v2_modules s).

Definition list_modules (run_id : string) (s : Store) : gmap string Json :=
  foldl (λ d m, <[mod_name m := mod_data m]> d) ∅ (fetch_modules run_id s).

(** [SELECT ... FROM aegis.manifest_v2_index WHERE run_id = $1] *)
Definition index_rows (run_id : string) (s : Store) : list IndexRow :=
  filter (λ r, ix_run_id r = run_id) (manifest_v2_index s).

Definition get_run (run_id : string) (s : Store) : option IndexRow :=
  head (index_rows run_id s).

Definition run_status (run_id : string) (s : Store) : option string :=
  ix_status <$> get_run run_id s.

Definition run_deploy_ready (run_id : string) (s : Store) : option bool :=
  get_run run_id s ≫= ix_deploy_ready.

(** The rows the three INSERTs of worker.py:67-94 add, in order. *)
Definition module_rows (job_data : Job) : list ModuleRow :=
  [ mkModuleRow (job_run_id job_data) "audit" audit_data;
    mkModuleRow (job_run_id job_data) "decision" (decision_data true []);
    mkModuleRow (job_run_id job_data) "deployment"
      (deployment_data (job_tenant_id job_data) (job_store_id job_data) (job_run_id job_data)) ].

(** ** Concrete runs *)

Definition job_R1 : Job := mkJob "R1" "T1" "S1" (JDict [("sku", JStr "X")]).

Definition row_R1 (st : string) (dr : option bool) : IndexRow :=
  mkIndexRow "T1" "S1" "R1" st dr 0 None.

Definition world0 (s : Store) : World := mkWorld s 0 [] [].

Definition store_R1_queued : Store := mkStore [row_R1 "queued" None] [] [].

Definition store_R1_absent : Store := mkStore [] [] [].

Definition req_T1_S1 : PipelineRequest :=
  mkPipelineRequest "T1" "S1" (JDict [("sku", JStr "X")]).

(** An API process started with [REDIS_URL] unset. *)
Definition env_no_redis : Env := mkEnv (Some "postgresql://aegis") None.


(** The message of run R1 delivered twice. *)
Definition store_R1_twice : Store := mkStore [row_R1 "queued" None] [] [job_R1; job_R1].

Definition job_R2 : Job := mkJob "R2" "T1" "S1" (JDict [("sku", JStr "Y")]).

(** Run R1 is completed; the message of run R2 waits on the queue. *)
Definition store_R1_done_R2_queued : Store :=
  mkStore [row_R1 "completed" (Some true); mkIndexRow "T1" "S1" "R2" "queued" None 1 None]
          (module_rows job_R1) [job_R2].

#[global] Instance WorkerAwait_eq_dec : EqDecision WorkerAwait.
Proof. solve_decision. Defined.

(** The oracle under which exactly the awaited call [x] raises. *)
Definition raise_at (x : WorkerAwait) : WorkerAwait → bool :=
  λ a, bool_decide (a = x).

(** ** Vocabulary of the properties *)

(** The fixed module set of a completed run. *)
Definition three_modules : gset string := {[ "audit"; "decision"; "deployment" ]}.

(** Some awaited call up to and including the first module INSERT
    (worker.py:67) raises. *)
Definition raises_before_modules (raises : WorkerAwait → bool) : bool :=
  raises acquire_35 || raises execute_36 || raises sleep_43 || raises sleep_47
  || raises sleep_55 || raises sleep_59 || raises acquire_65 || raises execute_67.

(** The names of the three modules, in the order of their INSERTs. *)
Definition module_names : list string := ["audit"; "decision"; "deployment"].

(** For a run that has no module yet, the number of module INSERTs
    (worker.py:67-94) that go through: those before the first awaited call
    that raises. *)
Definition inserts_done (raises : WorkerAwait → bool) : nat :=
  if raises_before_modules raises then 0
  else if raises execute_77 then 1
  else if raises execute_87 then 2
  else 3.

(** Every message on the queue names a run of the index. *)
Definition queue_indexed (s : Store) : Prop :=
  ∀ j, j ∈ pipeline_queue s → has_run (job_run_id j) (manifest_v2_index s) = true.

(** What the job logs when nothing raises (worker.py:31-106). *)
Definition job_log (job_data : Job) : list LogEntry :=
  let run_id := job_run_id job_data in
  [ mkLog info "pipeline_start"
      [("run_id", VStr run_id); ("tenant_id", VStr (job_tenant_id job_data));
       ("store_id", VStr (job_store_id job_data))];
    mkLog info "phase_1_prefetch" [("run_id", VStr run_id)];
    mkLog info "phase_2_hard_block" [("run_id", VStr run_id)];
    mkLog info "phase_3_assets" [("run_id", VStr run_id)];
    mkLog info "phase_4_soft_checks" [("run_id", VStr run_id)];
    mkLog info "phase_5_manifest" [("run_id", VStr run_id)];
    mkLog info "pipeline_complete" [("run_id", VStr run_id); ("deploy_ready", VBool true)] ].

(** What a job leaves alone in the shared store: the queue, the set of run
    ids of the index, and every row and module of another run. *)
Definition job_keeps (job_data : Job) (s0 s : Store) : Prop :=
  pipeline_queue s = pipeline_queue s0 ∧
  ix_run_id <$> manifest_v2_index s = ix_run_id <$> manifest_v2_index s0 ∧
  ∀ r, r ≠ job_run_id job_data →
       index_rows r s = index_rows r s0 ∧ fetch_modules r s = fetch_modules r s0.

(** What a call of the enqueue endpoint may add to the queue of [s0]: only
    the message of its own run id, whose index row is then [queued]. *)
Definition enqueued_after_row (uuid : string) (s0 s : Store) : Prop :=
  ∀ j, j ∈ pipeline_queue s →
       j ∈ pipeline_queue s0 ∨ (job_run_id j = uuid ∧ run_status uuid s = Some "queued").

(** The two processes taking turns: a call of the enqueue endpoint, or one
    turn of the worker loop. *)
Inductive Op : Type :=
  | Enqueue (g : Globals) (raises : ApiAwait → bool) (uuid : string) (req : PipelineRequest)
  | WorkerTurn (raises : WorkerAwait → bool).

Definition run_op (w : World) (o : Op) : World :=
  match o with
  | Enqueue g raises uuid req => (run_pipeline g raises uuid req w).2
  | WorkerTurn raises => (worker_iteration raises w).2
  end.

Definition run_ops (ops : list Op) (w : World) : World := foldl run_op w ops.

(** No message on the queue is for run [r]. *)
Definition not_queued (r : string) (s : Store) : Prop :=
  ∀ j, j ∈ pipeline_queue s → job_run_id j ≠ r.

(** Store [s] holds the same index rows for run [r] as store [s0]. *)
Definition same_rows (r : string) (s0 s : Store) : Prop :=
  index_rows r s = index_rows r s0.

(** ** The rest of src/worker.py *)




(** ** The rest of src/app/main.py *)

(** A read of the shared store: a SELECT changes nothing. *)
Definition read_store {A} (f : Store → A) : M A :=
  λ w, (Return (f (store w)), w).

(** [NOW()] *)
Definition NOW : M nat :=
  λ w, (Return (clock w), w).

(** *** GET /health *)

Inductive HealthAwait : Type :=
  | acquire_76 | fetchval_77 | ping_85.

Record HealthResponse : Type := mkHealthResponse {
  hr_status : string;
  hr_checks : gmap string string
}.

(** [all(v == "ok" for v in checks.values())] *)
Definition all_ok (checks : gmap string string) : bool :=
  bool_decide (map_Forall (λ _ v, v = "ok") checks).

(** [health] (main.py:69-93).  [status_code] is computed and not used:
    the function returns the body alone. *)
Definition health (g : Globals) (raises : HealthAwait → bool) : M HealthResponse :=
  let checks : gmap string string := {[ "api" := "ok" ]} in
  (* Postgres *)
  checks ← match db_pool g with
            | Some _ =>
                try_except
                  (db_pool_acquire (raises acquire_76) "main.py:76" ;;
                   await (raises fetchval_77) "main.py:77" ;;
                   mret (<["postgres" := "ok"]> checks))
                  (λ e, mret (<["postgres" := "error: " +:+ exn_str e]> checks))
            | None => mret checks
            end;
  (* Redis *)
  checks ← match redis_client g with
            | Some _ =>
                try_except
                  (await (raises ping_85) "main.py:85" ;;
                   mret (<["redis" := "ok"]> checks))
                  (λ e, mret (<["redis" := "error: " +:+ exn_str e]> checks))
            | None => mret checks
            end;
  let status_code := if all_ok checks then 200%nat else 503%nat in
  mret (mkHealthResponse (if all_ok checks then "healthy" else "degraded") checks).

(** *** POST /api/v2/onboarding *)

Record OnboardingRequest : Type := mkOnboardingRequest {
  onb_tenant_id : string;
  onb_revenue_monthly : Z;
  onb_ad_budget_monthly : Z;
  onb_target_countries : list string;
  onb_product_count : Z
}.

Record ProfileResponse : Type := mkProfileResponse {
  pr_profile : string;
  pr_monthly_price_eur : Z;
  pr_features : gmap string bool;
  pr_reason : string
}.

(** A value of the dict [profiles] (main.py:132-136). *)
Record ProfileDetails : Type := mkProfileDetails {
  price : Z;
  features : gmap string bool
}.

#[global] Instance ProfileDetails_inhabited : Inhabited ProfileDetails :=
  populate (mkProfileDetails 0 ∅).

Definition profiles : gmap string ProfileDetails :=
  {[ "starter" := mkProfileDetails 79 {[ "videos" := false; "mlops" := false ]};
     "pro" := mkProfileDetails 249 {[ "videos" := true; "mlops" := false ]};
     "enterprise" := mkProfileDetails 990 {[ "videos" := true; "mlops" := true ]} ]}.

(** The rule cascade of main.py:115-129: the profile and the reason. *)
Definition select_profile (req : OnboardingRequest) : string * string :=
  if bool_decide (50000 < onb_revenue_monthly req)%Z then ("enterprise", "revenue > 50k")
  else if bool_decide (5000 < onb_ad_budget_monthly req)%Z then ("pro", "ad_budget > 5k")
  else if bool_decide (3 < length (onb_target_countries req))%nat
       then ("enterprise", "multi-country")
  else if bool_decide (5 < onb_product_count req)%Z then ("pro", "product_count > 5")
  else ("starter", "default").

(** A row of [aegis.tenants], with the columns the statement of
    main.py:144-146 names. *)
Record TenantRow : Type := mkTenantRow {
  tn_tenant_id : string;
  tn_profile : string;
  tn_revenue_monthly : Z;
  tn_ad_budget_monthly : Z;
  tn_created_at : nat;
  tn_updated_at : option nat
}.

Definition has_tenant (tenant_id : string) (tenants : list TenantRow) : bool :=
  bool_decide (tenant_id ∈ tn_tenant_id <$> tenants).

(** [INSERT INTO aegis.tenants ... ON CONFLICT (tenant_id) DO UPDATE SET
    profile = $2, updated_at = NOW()]: a tenant id of the table keeps its
    row, of which the profile and [updated_at] alone are rewritten; a new
    one gets a row with the four values and the time.  The conflict target
    makes [tenant_id] a unique column. *)
Definition upsert_tenant (tenant_id profile : string) (revenue_monthly ad_budget_monthly : Z)
    (now : nat) (tenants : list TenantRow) : list TenantRow :=
  if has_tenant tenant_id tenants
  then (λ r, if decide (tn_tenant_id r = tenant_id)
             then mkTenantRow (tn_tenant_id r) profile (tn_revenue_monthly r)
                              (tn_ad_budget_monthly r) (tn_created_at r) (Some now)
             else r) <$> tenants
  else (tenants ++ [mkTenantRow tenant_id profile revenue_monthly ad_budget_monthly now None])%list.

Inductive OnboardingAwait : Type :=
  | acquire_141 | execute_142.

(** [onboarding] (main.py:110-158).  The table [aegis.tenants], which no
    other function touches, is passed in and handed back with the
    response; the statement being the last call that can raise, a raise
    leaves the table as it was.  [profiles[profile]] is the lookup [!!!]:
    the cascade only yields keys of the dict. *)
Definition onboarding (g : Globals) (raises : OnboardingAwait → bool)
    (req : OnboardingRequest) (tenants : list TenantRow)
    : M (ProfileResponse * list TenantRow) :=
  logger info "onboarding_start" [("tenant_id", VStr (onb_tenant_id req))] ;;
  (* Rule-based selection (from config) *)
  let profile := (select_profile req).1 in
  let reason := (select_profile req).2 in
  let selected := profiles !!! profile in
  (* Store in DB *)
  tenants' ← match db_pool g with
              | None => raise (AttributeError "'NoneType' object has no attribute 'acquire'")
              | Some _ =>
                  db_pool_acquire (raises acquire_141) "main.py:141" ;;
                  await (raises execute_142) "main.py:142" ;;
                  now ← NOW;
                  mret (upsert_tenant (onb_tenant_id req) profile (onb_revenue_monthly req)
                          (onb_ad_budget_monthly req) now tenants)
              end;
  logger info "onboarding_complete"
    [("tenant_id", VStr (onb_tenant_id req)); ("profile", VStr profile)] ;;
  mret (mkProfileResponse profile (price selected) (features selected) reason, tenants').

(** *** GET /api/v2/manifest/{tenant_id}/{store_id} *)

Inductive ManifestAwait : Type :=
  | acquire_205 | fetchrow_207 | fetch_222.

Inductive HTTPException : Type :=
  | mkHTTPException (status_code : nat) (detail : string).

(** The dict [get_manifest] returns; [created_at] stands for its
    [isoformat()] text. *)
Record ManifestResponse : Type := mkManifestResponse {
  mf_run_id : string;
  mf_status : string;
  mf_deploy_ready : option bool;
  mf_created_at : nat;
  mf_modules : gmap string Json
}.

(** The rows [ORDER BY created_at DESC] may put first: those of the tenant
    and store whose [created_at] is the greatest. *)
Definition latest_rows (tenant_id store_id : string) (ix : list IndexRow) : list IndexRow :=
  let rows := filter (λ r, ix_tenant_id r = tenant_id ∧ ix_store_id r = store_id) ix in
  filter (λ r, Forall (λ r', ix_created_at r' ≤ ix_created_at r)%nat rows) rows.

(** [SELECT ... WHERE tenant_id = $1 AND store_id = $2 ORDER BY created_at
    DESC LIMIT 1].  Among rows of equal [created_at] the order is not
    specified: [tie] is the choice the database makes. *)
Definition select_latest_run (tie : nat) (tenant_id store_id : string) (s : Store)
    : option IndexRow :=
  let rows := latest_rows tenant_id store_id (manifest_v2_index s) in
  rows !! (tie mod length rows)%nat.

(** [await conn.fetchrow(...)] (main.py:207) *)
Definition conn_fetchrow (fails : bool) (site : string) (tie : nat)
    (tenant_id store_id : string) : M (option IndexRow) :=
  await fails site ;; read_store (select_latest_run tie tenant_id store_id).

(** [await conn.fetch(...)] (main.py:222) *)
Definition conn_fetch (fails : bool) (site : string) (run_id : string) : M (list ModuleRow) :=
  await fails site ;; read_store (fetch_modules run_id).

(** [get_manifest] (main.py:203-237).  The [HTTPException] of main.py:219,
    which nothing catches before the framework answers with it, is the
    left summand of the result. *)
Definition get_manifest (g : Globals) (raises : ManifestAwait → bool) (tie : nat)
    (tenant_id store_id : string) : M (HTTPException + ManifestResponse) :=
  match db_pool g with
  | None => raise (AttributeError "'NoneType' object has no attribute 'acquire'")
  | Some _ =>
      db_pool_acquire (raises acquire_205) "main.py:205" ;;
      (* Get latest run *)
      row ← conn_fetchrow (raises fetchrow_207) "main.py:207" tie tenant_id store_id;
      match row with
      | None => mret (inl (mkHTTPException 404 "No manifest found"))
      | Some row =>
          (* Get modules *)
          modules ← conn_fetch (raises fetch_222) "main.py:222" (ix_run_id row);
          mret (inr (mkManifestResponse (ix_run_id row) (ix_status row) (ix_deploy_ready row)
                       (ix_created_at row)
                       (foldl (λ d m, <[mod_name m := mod_data m]> d) ∅ modules)))
      end
  end.

(** ** Vocabulary of the further properties *)

(** The oracles under which no awaited call of the endpoint raises. *)
Definition health_ok : HealthAwait → bool := λ _, false.
Definition onboarding_ok : OnboardingAwait → bool := λ _, false.
Definition manifest_ok : ManifestAwait → bool := λ _, false.

(** The statements the two processes issue: a module INSERT names one of
    the three modules, and the UPDATE to [completed] carries
    [deploy_ready = True] (worker.py:50, 103). *)
Definition issued (q : Sql) : Prop :=
  match q with
  | INSERT_module _ name _ => name ∈ ["audit"; "decision"; "deployment"]
  | UPDATE_index_completed _ deploy_ready => deploy_ready = true
  | _ => True
  end.

(** A property of the index and the modules that every issued statement
    keeps. *)
Record StoreInvariant (I : Store → Prop) : Prop := mkStoreInvariant {
  inv_sql : ∀ q now s s', issued q → I s → exec_sql q now s = inr s' → I s';
  inv_queue : ∀ s q, I s → I (mkStore (manifest_v2_index s) (manifest_v2_modules s) q)
}.

(** Started where [I] holds, the computation commits only store contents
    where it holds, and leaves one. *)
Definition invariant {A} (I : Store → Prop) (m : M A) : Prop :=
  ∀ w, I (store w) →
       ∃ new, commits (m w).2 = (commits w ++ new)%list ∧ Forall I new ∧ I (store (m w).2).

(** What identifies an index row: the columns no UPDATE assigns. *)
Definition ix_ident (r : IndexRow) : string * string * string * nat :=
  (ix_tenant_id r, ix_store_id r, ix_run_id r, ix_created_at r).

(** The states of a run the code writes, and what goes with them. *)
Definition row_ok (r : IndexRow) : Prop :=
  ix_status r ∈ ["queued"; "processing"; "completed"; "failed"] ∧
  ix_deploy_ready r ≠ Some false ∧
  (ix_status r = "completed" → ix_deploy_ready r = Some true) ∧
  (ix_status r = "queued" → ix_deploy_ready r = None ∧ ix_updated_at r = None).



(** LPUSH of each message in turn. *)
Fixpoint lpush_all (msgs : list Job) : M unit :=
  match msgs with
  | [] => mret tt
  | msg :: rest => push_left msg ;; lpush_all rest
  end.

(** [n] BRPOPs in a row, with what each returned. *)
Fixpoint brpop_n (n : nat) (timeout : nat) : M (list (option Job)) :=
  match n with
  | O => mret []
  | S n => r ← pop_right timeout; rs ← brpop_n n timeout; mret (r :: rs)
  end.

(** ** Concrete tenants *)

(** Tenant T1 sells in four countries, with a small ad budget. *)
Definition onboarding_T1 : OnboardingRequest :=
  mkOnboardingRequest "T1" 20000 3000 ["FR"; "DE"; "ES"; "IT"] 2.

(** The globals of an API process connected to both backends. *)
Definition globals_connected : Globals :=
  mkGlobals (Some "postgresql://aegis") (Some "redis://aegis").

(** Tenant T1 as onboarded at time 0 with the [starter] profile. *)
Definition tenants_T1 : list TenantRow :=
  [mkTenantRow "T1" "starter" 1000 100 0 None].

(** ** Lemmas on the statements *)

Section Statements.
Implicit Types (r : string) (ix : list IndexRow) (ms : list ModuleRow) (s : Store).

Lemma update_where_rows_same r f ix :
  (∀ row, ix_run_id (f row) = ix_run_id row) →
  filter (λ row, ix_run_id row = r) (update_where r f ix)
  = f <$> filter (λ row, ix_run_id row = r) ix.
Proof.
  intros Hf. unfold update_where.
  induction ix as [|row ix IH]; [done|].
  rewrite fmap_cons, !filter_cons. destruct (decide (ix_run_id row = r)) as [E|N].
  - rewrite decide_True by (rewrite Hf; done). rewrite fmap_cons. by f_equal.
  - rewrite decide_False by done. done.
Qed.

Lemma update_where_rows_other r r' f ix :
  (∀ row, ix_run_id (f row) = ix_run_id row) → r' ≠ r →
  filter (λ row, ix_run_id row = r') (update_where r f ix)
  = filter (λ row, ix_run_id row = r') ix.
Proof.
  intros Hf Hne. unfold update_where.
  induction ix as [|row ix IH]; [done|].
  rewrite fmap_cons, !filter_cons. destruct (decide (ix_run_id row = r)) as [E|N].
  - rewrite decide_False by (rewrite Hf; congruence).
    rewrite decide_False by congruence. done.
  - rewrite IH. done.
Qed.

Lemma update_where_absent r f ix :
  filter (λ row, ix_run_id row = r) ix = [] → update_where r f ix = ix.
Proof.
  unfold update_where. induction ix as [|row ix IH]; [done|].
  rewrite filter_cons, fmap_cons. destruct (decide (ix_run_id row = r)); [done|].
  intros H. by rewrite IH.
Qed.

Lemma update_where_run_ids r f ix :
  (∀ row, ix_run_id (f row) = ix_run_id row) →
  ix_run_id <$> update_where r f ix = ix_run_id <$> ix.
Proof.
  intros Hf. unfold update_where. rewrite <- list_fmap_compose.
  apply list_fmap_ext. intros _ row _. simpl. by destruct (decide _).
Qed.

Lemma has_module_app r n ms m :
  has_module r n (ms ++ [m])
  = has_module r n ms || bool_decide ((r, n) = (mod_run_id m, mod_name m)).
Proof.
  unfold has_module. rewrite fmap_app. simpl.
  apply eq_true_iff_eq. rewrite orb_true_iff, !bool_decide_eq_true.
  rewrite elem_of_app, list_elem_of_singleton. done.
Qed.

Lemma has_module_fresh r n ms :
  filter (λ m, mod_run_id m = r) ms = [] → has_module r n ms = false.
Proof.
  intros H. unfold has_module. apply bool_decide_eq_false.
  intros (m & E & Hin)%list_elem_of_fmap. injection E as Er _.
  assert (m ∈ filter (λ m, mod_run_id m = r) ms) as Hm
    by (by apply list_elem_of_filter).
  rewrite H in Hm. by apply not_elem_of_nil in Hm.
Qed.
End Statements.

(** ** Symbolic execution of [process_pipeline_job] *)

Ltac simp_world :=
  cbn [fst snd store clock log commits exec_sql is_Exception
       manifest_v2_index manifest_v2_modules pipeline_queue].

Ltac run_job :=
  unfold process_pipeline_job, try_except, conn_execute, db_pool_acquire,
    asyncio_sleep, await, run_sql, logger, advance_clock, commit, raise;
  unfold mbind, M_bind, mret, M_ret; simp_world.

(** Case on whether the awaited call [x] raises, if the run gets there. *)
Ltac site f x :=
  lazymatch goal with
  | |- context [f x] => destruct (f x) eqn:?; simp_world
  | _ => idtac
  end.

(** Case on whether the INSERT of module [n] hits an existing key. *)
Ltac dup_key n :=
  lazymatch goal with
  | |- context [has_module ?r n ?ms] => destruct (has_module r n ms) eqn:?; simp_world
  | _ => idtac
  end.

(** The awaited calls in source order: one goal per way through the job. *)
Ltac job_cases f :=
  run_job;
  site f acquire_35; site f execute_36;
  site f sleep_43; site f sleep_47; site f sleep_55; site f sleep_59;
  site f acquire_65;
  site f execute_67; dup_key "audit";
  site f execute_77; dup_key "decision";
  site f execute_87; dup_key "deployment";
  site f execute_97;
  site f acquire_110; site f execute_111.

Section Rows.
Implicit Types (r : string) (ix : list IndexRow) (ms : list ModuleRow).

Lemma run_status_present r s st :
  run_status r s = Some st → ∃ row rest, index_rows r s = row :: rest ∧ ix_status row = st.
Proof.
  unfold run_status, get_run. destruct (index_rows r s) as [|row rest]; [done|].
  simpl. intros [= <-]. eauto.
Qed.
End Rows.

(** ** The manifest of a terminal run *)

Lemma list_modules_rows r s ms :
  fetch_modules r s = ms →
  list_modules r s = foldl (λ d m, <[mod_name m := mod_data m]> d) ∅ ms.
Proof. unfold list_modules. by intros ->. Qed.

Lemma dom_foldl_insert (ms : list ModuleRow) :
  dom (foldl (λ d m, <[mod_name m := mod_data m]> d) (∅ : gmap string Json) ms)
  = list_to_set (mod_name <$> ms).
Proof.
  induction ms as [|m ms IH] using rev_ind; [set_solver|].
  rewrite foldl_app, fmap_app, list_to_set_app_L. cbn [foldl].
  rewrite dom_insert_L, IH. set_solver.
Qed.

(** C1, the failing case: the second INSERT (worker.py:77) raises.  The
    audit module is already stored, and the handler then marks the run
    [failed]. *)
Lemma C1_counterexample :
  let w' := (process_pipeline_job (raise_at execute_77) job_R1 (world0 store_R1_queued)).2 in
  run_status "R1" (store w') = Some "failed" ∧
  list_modules "R1" (store w') = {[ "audit" := audit_data ]} ∧
  list_modules "R1" (store w') ≠ ∅.
Proof.
  split; [reflexivity|]. split; [by vm_compute|].
  intros H. apply (f_equal (λ m, m !! "audit")) in H. vm_compute in H. discriminate.
Qed.

Lemma pair_key_ne (r n n' : string) :
  n ≠ n' → bool_decide ((r, n) = (r, n')) = false.
Proof. intros. apply bool_decide_eq_false. congruence. Qed.

(** The INSERT meets no existing key when the run had no module before. *)
Ltac fresh_key Hms :=
  rewrite ?has_module_app, ?(has_module_fresh _ _ _ Hms), ?pair_key_ne by discriminate;
  cbn [orb]; simp_world.

(** [job_cases] from a store where the run has no module yet. *)
Ltac fresh_job_cases f Hms :=
  run_job;
  site f acquire_35; site f execute_36;
  site f sleep_43; site f sleep_47; site f sleep_55; site f sleep_59;
  site f acquire_65;
  site f execute_67; fresh_key Hms;
  site f execute_77; fresh_key Hms;
  site f execute_87; fresh_key Hms;
  site f execute_97; site f acquire_110; site f execute_111.

Ltac simp_rows Hrows Hms :=
  unfold run_status, run_deploy_ready, get_run, index_rows, fetch_modules;
  cbn [manifest_v2_index manifest_v2_modules];
  rewrite ?update_where_rows_same by done;
  rewrite ?filter_app, ?Hrows, ?Hms, ?filter_cons, ?filter_nil;
  cbn [mod_run_id]; rewrite ?decide_True by done;
  cbn [fmap list_fmap head option_fmap option_map mbind option_bind app
       ix_status ix_deploy_ready set_status set_completed].

Lemma job_outcome raises job w :
  run_status (job_run_id job) (store w) = Some "queued" →
  fetch_modules (job_run_id job) (store w) = [] →
  ∀ s', store (process_pipeline_job raises job w).2 = s' →
  (run_status (job_run_id job) s' = Some "completed" ∧
   fetch_modules (job_run_id job) s' = module_rows job ∧
   run_deploy_ready (job_run_id job) s' = Some true)
  ∨ (∃ k, fetch_modules (job_run_id job) s' = take k (module_rows job) ∧
          (raises_before_modules raises = true → k = 0) ∧
          run_status (job_run_id job) s' ∈ Some <$> ["queued"; "processing"; "failed"] ∧
          run_deploy_ready (job_run_id job) s' = run_deploy_ready (job_run_id job) (store w)).
Proof.
  intros Hst Hms.
  destruct (run_status_present _ _ _ Hst) as (row & rest & Hrows & Hrow).
  assert (run_deploy_ready (job_run_id job) (store w) = ix_deploy_ready row) as Hdr
    by (unfold run_deploy_ready, get_run; by rewrite Hrows).
  rewrite Hdr. clear Hdr.
  unfold fetch_modules in Hms. unfold index_rows in Hrows.
  fresh_job_cases raises Hms.
  all: intros s' <-; unfold raises_before_modules.
  all: simp_rows Hrows Hms; rewrite ?Hrow.
  all: first [ by left | right ].
  all: first [ (exists 0; split; [reflexivity|])
             | (exists 1; split; [reflexivity|])
             | (exists 2; split; [reflexivity|])
             | (exists 3; split; [reflexivity|]) ].
  all: split; [|split; [set_solver|done]].
  all: first [ done | intros Hb ].
  all: repeat match goal with E : _ _ = false |- _ => rewrite E in Hb; clear E end.
  all: done.
Qed.

(** The awaited call [x] does not raise. *)
Ltac ok_site Hno x := rewrite (Hno x); simp_world.

(** The job when no awaited call raises and the run has no module yet. *)
Lemma job_no_raise raises job w :
  (∀ a, raises a = false) →
  fetch_modules (job_run_id job) (store w) = [] →
  ∀ res w', process_pipeline_job raises job w = (res, w') →
  res = Return tt ∧
  store w' =
    mkStore
      (update_where (job_run_id job) (set_completed true (clock w + 2 + 3 + 5 + 2))
         (update_where (job_run_id job) (set_status "processing" (clock w))
            (manifest_v2_index (store w))))
      (manifest_v2_modules (store w) ++ module_rows job)
      (pipeline_queue (store w)) ∧
  log w' = (log w ++ job_log job)%list.
Proof.
  intros Hno Hms. unfold fetch_modules in Hms.
  run_job.
  ok_site Hno acquire_35. ok_site Hno execute_36.
  ok_site Hno sleep_43. ok_site Hno sleep_47. ok_site Hno sleep_55. ok_site Hno sleep_59.
  ok_site Hno acquire_65.
  ok_site Hno execute_67. fresh_key Hms.
  ok_site Hno execute_77. fresh_key Hms.
  ok_site Hno execute_87. fresh_key Hms.
  ok_site Hno execute_97.
  intros res w' [= <- <-]. simp_world.
  unfold module_rows, job_log. cbv zeta.
  rewrite <- !(assoc_L (++)). done.
Qed.

Lemma dom_list_modules_take job s k :
  fetch_modules (job_run_id job) s = take k (module_rows job) →
  dom (list_modules (job_run_id job) s) ⊆ three_modules ∧
  (k = 0 → list_modules (job_run_id job) s = ∅) ∧
  ((3 ≤ k)%nat → dom (list_modules (job_run_id job) s) = three_modules ∧
           list_modules (job_run_id job) s !! "decision" = Some (decision_data true []) ∧
           list_modules (job_run_id job) s !! "deployment"
           = Some (deployment_data (job_tenant_id job) (job_store_id job) (job_run_id job))).
Proof.
  intros H. rewrite (list_modules_rows _ _ _ H). unfold three_modules.
  destruct k as [|[|[|k]]]; cbn [take module_rows foldl mod_name mod_data];
    rewrite ?take_nil; cbn [foldl]; rewrite ?dom_insert_L, ?dom_empty_L.
  - split; [set_solver|]. split; [done|lia].
  - split; [set_solver|]. split; [done|lia].
  - split; [set_solver|]. split; [done|lia].
  - split; [set_solver|]. split; [done|]. intros _.
    split; [set_solver|]. split; [|by rewrite lookup_insert_eq].
    rewrite lookup_insert_ne by done. by rewrite lookup_insert_eq.
Qed.

(** The modules of a run that had none, after its job: the rows of the
    INSERTs that went through, whatever the status; and the job sets the
    run [completed] only after all three. *)
Lemma job_modules raises job w :
  fetch_modules (job_run_id job) (store w) = [] →
  ∀ s', store (process_pipeline_job raises job w).2 = s' →
  fetch_modules (job_run_id job) s' = take (inserts_done raises) (module_rows job) ∧
  (run_status (job_run_id job) s' = Some "completed" →
   run_status (job_run_id job) (store w) ≠ Some "completed" →
   inserts_done raises = 3).
Proof.
  intros Hms.
  destruct (index_rows (job_run_id job) (store w)) as [|row rest] eqn:Hrows;
    unfold index_rows in Hrows; unfold fetch_modules in Hms.
  all: fresh_job_cases raises Hms.
  all: intros s' <-; unfold inserts_done, raises_before_modules.
  all: repeat match goal with
         | E : ?f ?x = _ |- context [?f ?x] => rewrite E
         end.
  all: cbn [orb]; unfold module_rows; cbn [take].
  all: simp_rows Hrows Hms.
  all: split; [reflexivity|].
  all: intros Hc Hn; first [reflexivity | discriminate Hc | by destruct Hn].
Qed.

(** C1 (amended).  For every run that has no module yet, and every
    execution of its job: the modules listed afterwards are exactly those
    whose INSERT went through before the first awaited call that raised.
    If the job brings the run to [completed], these are audit, decision
    and deployment.  If the run ends [failed], the listing is empty when
    the call that raised is the first INSERT or an earlier one; a raise
    after the first INSERT leaves the modules already inserted in place:
    audit when the second INSERT raised, audit and decision when the
    third raised, all three when the UPDATE to [completed] raised. *)
Theorem C1_manifest_of_terminal_run raises job w :
  fetch_modules (job_run_id job) (store w) = [] →
  let s' := store (process_pipeline_job raises job w).2 in
  let k := inserts_done raises in
  fetch_modules (job_run_id job) s' = take k (module_rows job) ∧
  (run_status (job_run_id job) s' = Some "completed" →
   run_status (job_run_id job) (store w) ≠ Some "completed" →
   dom (list_modules (job_run_id job) s') = three_modules) ∧
  (run_status (job_run_id job) s' = Some "failed" →
   dom (list_modules (job_run_id job) s') = list_to_set (take k module_names) ∧
   (raises_before_modules raises = true → list_modules (job_run_id job) s' = ∅) ∧
   (raises_before_modules raises = false →
    list_modules (job_run_id job) s' !! "audit" = Some audit_data)).
Proof.
  intros Hms s' k.
  destruct (job_modules raises job w Hms s' eq_refl) as [Hrows Hdone].
  assert (dom (list_modules (job_run_id job) s') = list_to_set (take k module_names))
    as Hdom.
  { rewrite (list_modules_rows _ _ _ Hrows), dom_foldl_insert, fmap_take. done. }
  split; [exact Hrows|]. split.
  - intros Hc Hn. rewrite Hdom. fold k in Hdone. rewrite (Hdone Hc Hn).
    unfold three_modules. cbn. set_solver.
  - intros _. split; [exact Hdom|].
    rewrite (list_modules_rows _ _ _ Hrows). subst k. unfold inserts_done.
    split; intros ->; [done|].
    destruct (raises execute_77); [|destruct (raises execute_87)];
      cbn [take module_rows foldl mod_name mod_data].
    + by rewrite lookup_insert_eq.
    + rewrite lookup_insert_ne by done. by rewrite lookup_insert_eq.
    + rewrite !lookup_insert_ne by done. by rewrite lookup_insert_eq.
Qed.

Lemma C1_witness :
  let s' := store (process_pipeline_job (raise_at execute_87) job_R1
                     (world0 store_R1_queued)).2 in
  run_status "R1" s' = Some "failed" ∧
  fetch_modules "R1" s' = take 2 (module_rows job_R1) ∧
  dom (list_modules "R1" s') = list_to_set ["audit"; "decision"] ∧
  list_modules "R1" s' !! "audit" = Some audit_data.
Proof.
  destruct (C1_manifest_of_terminal_run (raise_at execute_87) job_R1
              (world0 store_R1_queued) eq_refl) as (Hrows & _ & Hfailed).
  destruct (Hfailed eq_refl) as (Hdom & _ & Haudit).
  split; [reflexivity|]. split; [exact Hrows|]. split; [exact Hdom|].
  apply Haudit. reflexivity.
Defined.

(** ** The deployment path *)

(** C7.  For every run that processing leaves [completed], the deployment
    module's [ready_to_deploy_path] is "s3://aegis/" followed by the tenant
    id, "/", the store id, "/" and the run id; for run R1 of tenant T1 and
    store S1 this is "s3://aegis/T1/S1/R1". *)
Theorem C7_ready_to_deploy_path raises job w :
  run_status (job_run_id job) (store w) = Some "queued" →
  fetch_modules (job_run_id job) (store w) = [] →
  let s' := store (process_pipeline_job raises job w).2 in
  run_status (job_run_id job) s' = Some "completed" →
  list_modules (job_run_id job) s' !! "deployment"
  = Some (JDict [("ready_to_deploy_path",
                  JStr ("s3://aegis/" +:+ job_tenant_id job +:+ "/"
                        +:+ job_store_id job +:+ "/" +:+ job_run_id job))])
  ∧ ready_to_deploy_path "T1" "S1" "R1" = "s3://aegis/T1/S1/R1".
Proof.
  intros Hst Hms s' Hc. split; [|reflexivity].
  destruct (job_outcome raises job w Hst Hms s' eq_refl)
    as [(_ & Hrows & _)|(k & _ & _ & Hin & _)].
  - by apply (dom_list_modules_take job s' 3).
  - rewrite Hc in Hin. set_solver.
Qed.

Lemma C7_witness :
  list_modules "R1" (store (process_pipeline_job no_raise job_R1 (world0 store_R1_queued)).2)
    !! "deployment"
  = Some (JDict [("ready_to_deploy_path", JStr "s3://aegis/T1/S1/R1")]).
Proof.
  apply (C7_ready_to_deploy_path no_raise job_R1 (world0 store_R1_queued));
    reflexivity.
Defined.

(** The scenario of run R1 end to end: the endpoint enqueues it for tenant
    T1 and store S1, one turn of the worker loop processes it. *)
Example scenario_R1 :
  let g := mkGlobals (Some "postgresql://aegis") (Some "redis://aegis") in
  let w := run_ops [Enqueue g api_ok "R1" req_T1_S1; WorkerTurn no_raise]
             (world0 store_R1_absent) in
  run_status "R1" (store w) = Some "completed" ∧
  dom (list_modules "R1" (store w)) = three_modules ∧
  list_modules "R1" (store w) !! "deployment"
  = Some (JDict [("ready_to_deploy_path", JStr "s3://aegis/T1/S1/R1")]) ∧
  pipeline_queue (store w) = [].
Proof. cbv zeta. repeat split; vm_compute; reflexivity. Qed.

(** ** Deploy readiness *)

Lemma job_no_raise_run raises job w :
  (∀ a, raises a = false) →
  run_status (job_run_id job) (store w) = Some "queued" →
  fetch_modules (job_run_id job) (store w) = [] →
  let w' := (process_pipeline_job raises job w).2 in
  log w' = (log w ++ job_log job)%list ∧
  run_status (job_run_id job) (store w') = Some "completed" ∧
  run_deploy_ready (job_run_id job) (store w') = Some true ∧
  fetch_modules (job_run_id job) (store w') = module_rows job.
Proof.
  intros Hno Hst Hms. cbv zeta.
  destruct (run_status_present _ _ _ Hst) as (row & rest & Hrows & Hrow).
  destruct (process_pipeline_job raises job w) as [res w1] eqn:E. cbn [snd].
  destruct (job_no_raise raises job w Hno Hms res w1 E) as (_ & -> & ->).
  unfold fetch_modules in Hms. unfold index_rows in Hrows.
  split; [done|]. unfold module_rows. simp_rows Hrows Hms. done.
Qed.

(** C8.  With no hard gate configured (the worker has none) and every
    phase succeeding, the run reaches [completed] and [deploy_ready = true]
    is stored both in the decision module and in the Run Index row. *)
Theorem C8_no_gate_default raises job w :
  (∀ a, raises a = false) →
  run_status (job_run_id job) (store w) = Some "queued" →
  fetch_modules (job_run_id job) (store w) = [] →
  let s' := store (process_pipeline_job raises job w).2 in
  run_status (job_run_id job) s' = Some "completed" ∧
  run_deploy_ready (job_run_id job) s' = Some true ∧
  list_modules (job_run_id job) s' !! "decision"
  = Some (JDict [("deploy_ready", JBool true); ("reasons", JList [])]).
Proof.
  intros Hno Hst Hms s'.
  destruct (job_no_raise_run raises job w Hno Hst Hms) as (_ & Hc & Hdr & Hrows).
  split; [done|]. split; [done|].
  by apply (dom_list_modules_take job s' 3).
Qed.

Lemma C8_witness :
  let s' := store (process_pipeline_job no_raise job_R1 (world0 store_R1_queued)).2 in
  run_status "R1" s' = Some "completed" ∧
  run_deploy_ready "R1" s' = Some true ∧
  list_modules "R1" s' !! "decision"
  = Some (JDict [("deploy_ready", JBool true); ("reasons", JList [])]).
Proof.
  apply (C8_no_gate_default no_raise job_R1 (world0 store_R1_queued)); reflexivity.
Defined.


(** ** What a job leaves alone *)

Ltac keeps_tac :=
  split; [reflexivity|];
  split; [cbn [manifest_v2_index]; rewrite ?update_where_run_ids by done; reflexivity|];
  let r := fresh "r" in let Hr := fresh "Hr" in
  intros r Hr; split;
  [ unfold index_rows; cbn [manifest_v2_index];
    rewrite ?update_where_rows_other by done; reflexivity
  | unfold fetch_modules; cbn [manifest_v2_modules];
    rewrite ?filter_app, ?filter_cons, ?filter_nil; cbn [mod_run_id];
    rewrite ?decide_False by congruence; rewrite ?app_nil_r; reflexivity ].

Lemma job_frame raises job w :
  ∀ w', (process_pipeline_job raises job w).2 = w' →
  ∃ new, commits w' = (commits w ++ new)%list ∧
         Forall (job_keeps job (store w)) new ∧
         job_keeps job (store w) (store w').
Proof.
  job_cases raises.
  all: intros w' <-; simp_world.
  all: rewrite <- ?(assoc_L (++)).
  all: eexists; split; [symmetry; first [apply app_nil_r | reflexivity]|].
  all: split; [repeat (apply Forall_cons; split); try apply Forall_nil|].
  all: first [exact I | keeps_tac].
Qed.

(** ** The worker loop and the runs it is not given *)

Lemma reverse_eq_cons {A} (l : list A) x rest :
  reverse l = x :: rest → l = (reverse rest ++ [x])%list.
Proof.
  intros H. rewrite <- (reverse_involutive l), H. by rewrite reverse_cons.
Qed.

Section Frame.
Variable r : string.

Lemma iteration_frame raises w :
  not_queued r (store w) →
  ∀ w', (worker_iteration raises w).2 = w' →
  not_queued r (store w') ∧ same_rows r (store w) (store w') ∧
  ∃ new, commits w' = (commits w ++ new)%list ∧ Forall (same_rows r (store w)) new.
Proof.
  intros Hq w' <-.
  unfold worker_iteration, try_except, redis_brpop, asyncio_sleep, await, pop_right,
    logger, advance_clock, commit, raise.
  unfold mbind, M_bind, mret, M_ret.
  destruct (raises brpop_123) eqn:Eb; simp_world.
  { destruct (raises sleep_132); simp_world;
      (split; [done|]; split; [done|]; exists []; by rewrite app_nil_r). }
  destruct (reverse (pipeline_queue (store w))) as [|msg rest] eqn:Erev; simp_world.
  { split; [done|]. split; [done|]. exists []. by rewrite app_nil_r. }
  apply reverse_eq_cons in Erev.
  assert (job_run_id msg ≠ r) as Hmsg.
  { apply Hq. rewrite Erev. apply elem_of_app. right. apply list_elem_of_here. }
  set (w1 := mkWorld _ _ _ _).
  destruct (job_frame raises msg w1 _ eq_refl) as (new & Hnew & Hall & Hk).
  assert (∀ s, job_keeps msg (store w1) s → not_queued r s ∧ same_rows r (store w) s) as Hkeep.
  { intros s (Hqs & _ & Hr). split.
    - intros j Hj. rewrite Hqs in Hj. apply Hq. rewrite Erev.
      apply elem_of_app. by left.
    - unfold same_rows. by destruct (Hr r ltac:(congruence)) as [-> _]. }
  assert (not_queued r (store (process_pipeline_job raises msg w1).2) ∧
          same_rows r (store w) (store (process_pipeline_job raises msg w1).2) ∧
          ∃ new', commits (process_pipeline_job raises msg w1).2 = (commits w ++ new')%list
                  ∧ Forall (same_rows r (store w)) new') as Hjob.
  { destruct (Hkeep _ Hk) as [? ?]. split; [done|]. split; [done|].
    exists (store w1 :: new). split.
    - rewrite Hnew. subst w1. simp_world. by rewrite <- (assoc_L (++)).
    - apply Forall_cons. split; [done|].
      eapply Forall_impl; [exact Hall|]. intros s Hs. by apply Hkeep. }
  destruct (process_pipeline_job raises msg w1) as [[[]|e] w2]; cbn [snd] in Hjob.
  { done. }
  destruct (is_Exception e); [destruct (raises sleep_132)|]; simp_world; exact Hjob.
Qed.

Lemma loop_frame oracles w :
  not_queued r (store w) →
  ∀ w', (worker_loop oracles w).2 = w' →
  not_queued r (store w') ∧ same_rows r (store w) (store w') ∧
  ∃ new, commits w' = (commits w ++ new)%list ∧ Forall (same_rows r (store w)) new.
Proof.
  revert w. induction oracles as [|raises rest IH]; intros w Hq w' <-.
  { cbn. split; [done|]. split; [done|]. exists []. by rewrite app_nil_r. }
  cbn [worker_loop]. unfold mbind, M_bind.
  destruct (iteration_frame raises w Hq _ eq_refl) as (Hq1 & Hr1 & new1 & Hc1 & Hall1).
  destruct (worker_iteration raises w) as [[[]|e] w1]; cbn [snd] in *.
  - destruct (IH w1 Hq1 _ eq_refl) as (Hq2 & Hr2 & new2 & Hc2 & Hall2).
    unfold same_rows in *. split; [done|]. split; [congruence|].
    exists (new1 ++ new2)%list. split.
    + by rewrite Hc2, Hc1, <- (assoc_L (++)).
    + apply Forall_app. split; [done|].
      eapply Forall_impl; [exact Hall2|]. intros s Hs. simpl in *. congruence.
  - split; [done|]. split; [done|]. by exists new1.
Qed.
End Frame.

(** ** Terminal statuses *)

(** C2, the failing case: the message of run R1 is delivered twice.  The
    first turn of the loop completes the run; the second sets it back to
    [processing] (worker.py:37) and, the audit module being there already,
    ends with the run [failed]. *)
Lemma C2_counterexample :
  let w1 := (worker_loop [no_raise] (world0 store_R1_twice)).2 in
  let w2 := (worker_loop [no_raise; no_raise] (world0 store_R1_twice)).2 in
  run_status "R1" (store w1) = Some "completed" ∧
  run_status "R1" <$> drop (length (commits w1)) (commits w2)
  = [Some "completed"; Some "processing"; Some "failed"] ∧
  run_status "R1" (store w2) = Some "failed".
Proof. cbv zeta. split; [|split]; vm_compute; reflexivity. Qed.

(** C2 (amended).  A run that is [completed] or [failed] keeps that status
    through every sequence of turns of the worker loop, and in every store
    contents committed on the way, provided no message for that run is on
    the queue: only a redelivery of its own job message moves it. *)
Theorem C2_terminal_unless_redelivered oracles w r st :
  st = "completed" ∨ st = "failed" →
  run_status r (store w) = Some st →
  not_queued r (store w) →
  let w' := (worker_loop oracles w).2 in
  run_status r (store w') = Some st ∧
  ∃ new, commits w' = (commits w ++ new)%list ∧
         Forall (λ s, run_status r s = Some st) new.
Proof.
  intros _ Hst Hq w'.
  destruct (loop_frame r oracles w Hq w' eq_refl) as (_ & Hr & new & Hc & Hall).
  unfold same_rows in *. split.
  - unfold run_status, get_run in *. by rewrite Hr.
  - exists new. split; [done|]. eapply Forall_impl; [exact Hall|].
    intros s Hs. unfold run_status, get_run in *. by rewrite Hs.
Qed.

Lemma C2_witness :
  let w' := (worker_loop [no_raise] (world0 store_R1_done_R2_queued)).2 in
  run_status "R1" (store w') = Some "completed" ∧
  ∃ new, commits w' = (commits (world0 store_R1_done_R2_queued) ++ new)%list ∧
         Forall (λ s, run_status "R1" s = Some "completed") new.
Proof.
  apply (C2_terminal_unless_redelivered [no_raise] (world0 store_R1_done_R2_queued)
           "R1" "completed").
  - left; reflexivity.
  - reflexivity.
  - intros j Hj. apply list_elem_of_singleton in Hj. subst j. discriminate.
Defined.

(** ** Failures *)




(** C6, the failing case: the index holds no row for run R1.  Its message
    is processed all the same: every phase is logged and three modules
    are written for the run id. *)
Lemma C6_counterexample :
  let w' := (process_pipeline_job no_raise job_R1 (world0 store_R1_absent)).2 in
  index_rows "R1" store_R1_absent = [] ∧
  log w' = job_log job_R1 ∧
  fetch_modules "R1" (store w') = module_rows job_R1 ∧
  fetch_modules "R1" (store w') ≠ [].
Proof.
  cbv zeta.
  assert (fetch_modules "R1"
            (store (process_pipeline_job no_raise job_R1 (world0 store_R1_absent)).2)
          = module_rows job_R1) as Hm by (vm_compute; reflexivity).
  split; [reflexivity|]. split; [vm_compute; reflexivity|].
  split; [exact Hm|]. rewrite Hm. discriminate.
Qed.

(** C6 (amended).  For a job message whose run id is absent from the Run
    Index, the worker writes no index row: the index is left as it was,
    whatever raises.  It does not drop the message: when nothing raises
    and the run id has no module yet, it logs every phase and writes the
    three modules for that run id. *)
Theorem C6_absent_run job w :
  index_rows (job_run_id job) (store w) = [] →
  (∀ raises,
     manifest_v2_index (store (process_pipeline_job raises job w).2)
     = manifest_v2_index (store w)) ∧
  (fetch_modules (job_run_id job) (store w) = [] →
   let w' := (process_pipeline_job no_raise job w).2 in
   log w' = (log w ++ job_log job)%list ∧
   fetch_modules (job_run_id job) (store w') = module_rows job).
Proof.
  intros Habs. unfold index_rows in Habs. split.
  - intros raises.
    destruct (process_pipeline_job raises job w) as [res w1] eqn:E. revert E.
    job_cases raises.
    all: intros [= <- <-]; simp_world.
    all: by rewrite ?(update_where_absent _ _ _ Habs).
  - intros Hms. cbv zeta.
    destruct (process_pipeline_job no_raise job w) as [res w1] eqn:E. cbn [snd].
    destruct (job_no_raise no_raise job w (λ _, eq_refl) Hms res w1 E) as (_ & -> & ->).
    split; [done|]. unfold fetch_modules in *. cbn [manifest_v2_modules].
    rewrite filter_app, Hms. unfold module_rows.
    rewrite !filter_cons, filter_nil. cbn [mod_run_id]. by rewrite !decide_True.
Qed.

Lemma C6_witness :
  (∀ raises,
     manifest_v2_index (store (process_pipeline_job raises job_R1 (world0 store_R1_absent)).2)
     = []) ∧
  (fetch_modules "R1" store_R1_absent = [] →
   let w' := (process_pipeline_job no_raise job_R1 (world0 store_R1_absent)).2 in
   log w' = job_log job_R1 ∧
   fetch_modules "R1" (store w') = module_rows job_R1).
Proof.
  apply (C6_absent_run job_R1 (world0 store_R1_absent)). reflexivity.
Defined.

(** ** The status transition *)

Lemma update_where_twice r f g ix :
  (∀ row, ix_run_id (g row) = ix_run_id row) →
  (∀ row, f (g row) = f row) →
  update_where r f (update_where r g ix) = update_where r f ix.
Proof.
  intros Hg Hfg. unfold update_where. rewrite <- list_fmap_compose.
  apply list_fmap_ext. intros _ row _. simpl.
  destruct (decide (ix_run_id row = r)) as [E|N].
  - rewrite decide_True by (by rewrite Hg). apply Hfg.
  - by rewrite decide_False.
Qed.

(** C9.  The UPDATE that moves a run to [processing] (worker.py:37) never
    errors on the state it finds; issued twice in a row on a run of the
    index it leaves the index as a single application at the later time
    does: the rows of the run are [processing] and carry the timestamp of
    the last application. *)
Theorem C9_transition_idempotent r t1 t2 s st :
  run_status r s = Some st →
  ∃ s1 s2,
    exec_sql (UPDATE_index_processing r) t1 s = inr s1 ∧
    exec_sql (UPDATE_index_processing r) t2 s1 = inr s2 ∧
    exec_sql (UPDATE_index_processing r) t2 s = inr s2 ∧
    run_status r s1 = Some "processing" ∧
    run_status r s2 = Some "processing" ∧
    Forall (λ row, ix_status row = "processing" ∧ ix_updated_at row = Some t2)
           (index_rows r s2).
Proof.
  intros Hst.
  destruct (run_status_present _ _ _ Hst) as (row & rest & Hrows & Hrow).
  unfold index_rows in Hrows.
  eexists _, _. split; [reflexivity|]. split; [reflexivity|].
  cbn [exec_sql manifest_v2_index manifest_v2_modules pipeline_queue].
  rewrite update_where_twice by done.
  split; [reflexivity|].
  split; [by simp_rows Hrows Hrows|]. split; [by simp_rows Hrows Hrows|].
  unfold index_rows. cbn [manifest_v2_index].
  rewrite update_where_rows_same by done.
  apply Forall_fmap, Forall_true. done.
Qed.

Lemma C9_witness :
  ∃ s1 s2,
    exec_sql (UPDATE_index_processing "R1") 5 store_R1_queued = inr s1 ∧
    exec_sql (UPDATE_index_processing "R1") 9 s1 = inr s2 ∧
    exec_sql (UPDATE_index_processing "R1") 9 store_R1_queued = inr s2 ∧
    run_status "R1" s1 = Some "processing" ∧
    run_status "R1" s2 = Some "processing" ∧
    Forall (λ row, ix_status row = "processing" ∧ ix_updated_at row = Some 9)
           (index_rows "R1" s2).
Proof.
  apply (C9_transition_idempotent "R1" 5 9 store_R1_queued "queued"). reflexivity.
Defined.

(** ** The enqueue endpoint *)

Lemma has_run_app r ix row :
  has_run r (ix ++ [row]) = has_run r ix || bool_decide (r = ix_run_id row).
Proof.
  unfold has_run. rewrite fmap_app. simpl.
  apply eq_true_iff_eq. rewrite orb_true_iff, !bool_decide_eq_true.
  rewrite elem_of_app, list_elem_of_singleton. done.
Qed.

Lemma has_run_rows r ix :
  has_run r ix = false → filter (λ row, ix_run_id row = r) ix = [].
Proof.
  unfold has_run. intros H%bool_decide_eq_false.
  induction ix as [|row ix IH]; [done|].
  rewrite filter_cons. rewrite fmap_cons, not_elem_of_cons in H.
  destruct H as [Hne Hnin]. rewrite decide_False by congruence. by apply IH.
Qed.

Lemma queue_indexed_insert s row :
  queue_indexed s →
  queue_indexed (mkStore (manifest_v2_index s ++ [row]) (manifest_v2_modules s)
                         (pipeline_queue s)).
Proof.
  intros Hq j Hj. cbn in *. rewrite has_run_app, (Hq j Hj). done.
Qed.

Lemma queue_indexed_push ix ms q row j :
  job_run_id j = ix_run_id row →
  queue_indexed (mkStore (ix ++ [row]) ms q) →
  queue_indexed (mkStore (ix ++ [row]) ms (j :: q)).
Proof.
  intros Hj Hq j' Hin. cbn in *. apply elem_of_cons in Hin as [->|Hin].
  - rewrite has_run_app, Hj, bool_decide_eq_true_2 by done. apply orb_true_r.
  - by apply Hq.
Qed.

Lemma run_status_inserted t st r now ix ms q :
  has_run r ix = false →
  run_status r (mkStore (ix ++ [mkIndexRow t st r "queued" None now None]) ms q)
  = Some "queued".
Proof.
  intros H. unfold run_status, get_run, index_rows. cbn [manifest_v2_index].
  rewrite filter_app, (has_run_rows _ _ H), filter_cons. cbn [ix_run_id].
  by rewrite decide_True.
Qed.

Ltac run_api :=
  unfold run_pipeline, conn_execute, db_pool_acquire, redis_lpush, push_left,
    await, run_sql, logger, commit, raise;
  unfold mbind, M_bind, mret, M_ret; simp_world.

(** The ways through [run_pipeline], in source order. *)
Ltac api_cases g f uuid :=
  run_api;
  destruct (db_pool g) as [?|] eqn:?; simp_world;
  [ site f acquire_175; site f execute_176;
    lazymatch goal with
    | |- context [has_run uuid ?ix] => destruct (has_run uuid ix) eqn:?; simp_world
    | _ => idtac
    end;
    lazymatch goal with
    | |- context [redis_client g] => destruct (redis_client g) as [?|] eqn:?; simp_world
    | _ => idtac
    end;
    site f lpush_188
  | ].

Lemma run_pipeline_commits g raises uuid req w :
  queue_indexed (store w) →
  ∀ res w', run_pipeline g raises uuid req w = (res, w') →
  ∃ new, commits w' = (commits w ++ new)%list ∧
         Forall (λ s, queue_indexed s ∧ enqueued_after_row uuid (store w) s) new ∧
         queue_indexed (store w') ∧ enqueued_after_row uuid (store w) (store w').
Proof.
  intros Hq.
  assert (enqueued_after_row uuid (store w) (store w)) as Hsame by (intros j Hj; by left).
  api_cases g raises uuid.
  all: intros res w' [= <- <-]; simp_world.
  all: rewrite <- ?(assoc_L (++)).
  all: eexists; split; [symmetry; first [apply app_nil_r | reflexivity]|].
  all: rewrite ?Forall_app, ?Forall_cons, ?Forall_nil.
  all: repeat match goal with
         | |- _ ∧ _ => split
         | |- True => exact I
         | |- queue_indexed (store _) => exact Hq
         | |- enqueued_after_row _ _ (store _) => exact Hsame
         | |- queue_indexed (mkStore (_ ++ [_]) _ (_ :: _)) =>
             apply queue_indexed_push; [reflexivity|]
         | |- queue_indexed (mkStore (_ ++ [_]) _ _) => by apply queue_indexed_insert
         | |- enqueued_after_row _ _ _ =>
             let j := fresh "j" in let Hj := fresh "Hj" in
             intros j Hj; cbn [pipeline_queue] in Hj;
             first [ by left
                   | apply elem_of_cons in Hj as [->|Hj];
                     [right; split; [reflexivity|by apply run_status_inserted] | by left] ]
         end.
Qed.

Lemma pop_indexed timeout w j w2 :
  queue_indexed (store w) →
  pop_right timeout w = (Return (Some j), w2) →
  has_run (job_run_id j) (manifest_v2_index (store w2)) = true.
Proof.
  intros Hq. unfold pop_right, commit.
  destruct (reverse (pipeline_queue (store w))) as [|msg rest] eqn:Erev; [done|].
  intros [= -> <-]. simp_world. apply Hq.
  rewrite (reverse_eq_cons _ _ _ Erev). apply elem_of_app. right. apply list_elem_of_here.
Qed.

Lemma job_keeps_indexed job s0 s :
  job_keeps job s0 s → queue_indexed s0 → queue_indexed s.
Proof.
  intros (Hq & Hids & _) H0 j Hj. rewrite Hq in Hj.
  unfold has_run. rewrite Hids. by apply H0.
Qed.

Lemma iteration_indexed raises w :
  queue_indexed (store w) →
  ∀ w', (worker_iteration raises w).2 = w' →
  ∃ new, commits w' = (commits w ++ new)%list ∧ Forall queue_indexed new ∧
         queue_indexed (store w').
Proof.
  intros Hq w' <-.
  unfold worker_iteration, try_except, redis_brpop, asyncio_sleep, await, pop_right,
    logger, advance_clock, commit, raise.
  unfold mbind, M_bind, mret, M_ret.
  destruct (raises brpop_123) eqn:Eb; simp_world.
  { destruct (raises sleep_132); simp_world;
      (exists []; split; [by rewrite app_nil_r|]; by split). }
  destruct (reverse (pipeline_queue (store w))) as [|msg rest] eqn:Erev; simp_world.
  { exists []. split; [by rewrite app_nil_r|]. by split. }
  apply reverse_eq_cons in Erev.
  set (w1 := mkWorld _ _ _ _).
  assert (queue_indexed (store w1)) as Hq1.
  { intros j Hj. subst w1. cbn in *. apply Hq. rewrite Erev. apply elem_of_app. by left. }
  destruct (job_frame raises msg w1 _ eq_refl) as (new & Hnew & Hall & Hk).
  assert (∃ new', commits (process_pipeline_job raises msg w1).2 = (commits w ++ new')%list
                  ∧ Forall queue_indexed new'
                  ∧ queue_indexed (store (process_pipeline_job raises msg w1).2)) as Hjob.
  { exists (store w1 :: new). split; [|split].
    - rewrite Hnew. subst w1. simp_world. by rewrite <- (assoc_L (++)).
    - apply Forall_cons. split; [done|].
      eapply Forall_impl; [exact Hall|]. intros s Hs. by eapply job_keeps_indexed.
    - by eapply job_keeps_indexed. }
  destruct (process_pipeline_job raises msg w1) as [[[]|e] w2]; cbn [snd] in Hjob.
  { done. }
  destruct (is_Exception e); [destruct (raises sleep_132)|]; simp_world; exact Hjob.
Qed.

Lemma ops_indexed ops w :
  queue_indexed (store w) →
  ∃ new, commits (run_ops ops w) = (commits w ++ new)%list ∧ Forall queue_indexed new ∧
         queue_indexed (store (run_ops ops w)).
Proof.
  revert w. induction ops as [|o ops IH]; intros w Hq.
  { exists []. split; [by rewrite app_nil_r|]. by split. }
  assert (∃ new, commits (run_op w o) = (commits w ++ new)%list ∧ Forall queue_indexed new ∧
                 queue_indexed (store (run_op w o))) as (new1 & Hc1 & Hall1 & Hq1).
  { destruct o as [g raises uuid req|raises]; cbn [run_op].
    - destruct (run_pipeline g raises uuid req w) as [res w'] eqn:E. cbn [snd].
      destruct (run_pipeline_commits g raises uuid req w Hq res w' E)
        as (new & Hc & Hall & Hq' & _).
      exists new. split; [done|]. split; [|done].
      eapply Forall_impl; [exact Hall|]. by intros s [? _].
    - exact (iteration_indexed raises w Hq _ eq_refl). }
  destruct (IH _ Hq1) as (new2 & Hc2 & Hall2 & Hq2).
  exists (new1 ++ new2)%list. unfold run_ops in *. cbn [foldl].
  split; [by rewrite Hc2, Hc1, <- (assoc_L (++))|]. split; [|done].
  apply Forall_app. by split.
Qed.

(** C4.  A call of the enqueue endpoint whose acquire and INSERT go
    through, for a run id not yet in the index, creates the index row of
    the run with status [queued] before its job message is visible: the
    first store contents it commits has the new row and the queue as it
    was; the message is in the next one only (none without a Redis
    client, or when the LPUSH raises).  Every queued message names a run
    of the index in both, as in each store contents that any call of the
    endpoint commits, and this stays so through any later calls of the
    endpoint and turns of the worker loop, so that no dequeue yields a
    run id absent from the index. *)
Theorem C4_index_row_before_message g raises uuid req w pool :
  db_pool g = Some pool →
  raises acquire_175 = false → raises execute_176 = false →
  has_run uuid (manifest_v2_index (store w)) = false →
  queue_indexed (store w) →
  let w' := (run_pipeline g raises uuid req w).2 in
  let row := mkIndexRow (req_tenant_id req) (req_store_id req) uuid "queued" None
               (clock w) None in
  let msg := mkJob uuid (req_tenant_id req) (req_store_id req) (req_product_data req) in
  let s1 := mkStore (manifest_v2_index (store w) ++ [row]) (manifest_v2_modules (store w))
              (pipeline_queue (store w)) in
  let s2 := mkStore (manifest_v2_index (store w) ++ [row]) (manifest_v2_modules (store w))
              (msg :: pipeline_queue (store w)) in
  commits w'
  = (commits w ++ s1 :: match redis_client g with
                        | Some _ => if raises lpush_188 then [] else [s2]
                        | None => []
                        end)%list ∧
  run_status uuid s1 = Some "queued" ∧
  queue_indexed s1 ∧ queue_indexed s2 ∧
  (∀ g0 raises0 uuid0 req0 w0,
     queue_indexed (store w0) →
     ∃ new, commits (run_pipeline g0 raises0 uuid0 req0 w0).2 = (commits w0 ++ new)%list ∧
            Forall (λ s, queue_indexed s ∧ enqueued_after_row uuid0 (store w0) s) new) ∧
  ∀ ops,
    (∃ new, commits (run_ops ops w') = (commits w' ++ new)%list ∧
            Forall queue_indexed new) ∧
    ∀ timeout j w2, pop_right timeout (run_ops ops w') = (Return (Some j), w2) →
                    has_run (job_run_id j) (manifest_v2_index (store w2)) = true.
Proof.
  intros Hpool H175 H176 Hfresh Hq. cbv zeta.
  assert (queue_indexed
            (mkStore (manifest_v2_index (store w) ++
                        [mkIndexRow (req_tenant_id req) (req_store_id req) uuid "queued" None
                           (clock w) None])
                     (manifest_v2_modules (store w)) (pipeline_queue (store w)))) as Hq1
    by (by apply queue_indexed_insert).
  split; [|split; [by apply run_status_inserted|split; [exact Hq1|split; [|split]]]].
  - destruct (run_pipeline g raises uuid req w) as [res w'] eqn:E. cbn [snd].
    revert E. run_api. rewrite Hpool; simp_world.
    rewrite H175; simp_world. rewrite H176; simp_world. rewrite Hfresh; simp_world.
    destruct (redis_client g); simp_world; [destruct (raises lpush_188); simp_world|].
    all: intros [= <- <-]; simp_world.
    all: by rewrite <- ?(assoc_L (++)).
  - by apply queue_indexed_push.
  - intros g0 raises0 uuid0 req0 w0 Hq0.
    destruct (run_pipeline g0 raises0 uuid0 req0 w0) as [res0 w0'] eqn:E0. cbn [snd].
    destruct (run_pipeline_commits g0 raises0 uuid0 req0 w0 Hq0 res0 w0' E0)
      as (new & Hc & Hall & _).
    by exists new.
  - destruct (run_pipeline g raises uuid req w) as [res w'] eqn:E. cbn [snd].
    destruct (run_pipeline_commits g raises uuid req w Hq res w' E) as (_ & _ & _ & Hq' & _).
    intros ops. destruct (ops_indexed ops w' Hq') as (new & Hc & Hall & Hq2).
    split; [by exists new|].
    intros timeout j w2. by apply pop_indexed.
Qed.

Lemma C4_witness :
  let w' := (run_pipeline (mkGlobals (Some "postgresql://aegis") (Some "redis://aegis"))
               api_ok "R1" req_T1_S1 (world0 store_R1_absent)).2 in
  let row := mkIndexRow "T1" "S1" "R1" "queued" None 0 None in
  let msg := mkJob "R1" "T1" "S1" (JDict [("sku", JStr "X")]) in
  commits w' = [mkStore [row] [] []; mkStore [row] [] [msg]] ∧
  run_status "R1" (mkStore [row] [] []) = Some "queued" ∧
  queue_indexed (mkStore [row] [] []) ∧ queue_indexed (mkStore [row] [] [msg]) ∧
  (∀ g0 raises0 uuid0 req0 w0,
     queue_indexed (store w0) →
     ∃ new, commits (run_pipeline g0 raises0 uuid0 req0 w0).2 = (commits w0 ++ new)%list ∧
            Forall (λ s, queue_indexed s ∧ enqueued_after_row uuid0 (store w0) s) new) ∧
  ∀ ops,
    (∃ new, commits (run_ops ops w') = (commits w' ++ new)%list ∧
            Forall queue_indexed new) ∧
    ∀ timeout j w2, pop_right timeout (run_ops ops w') = (Return (Some j), w2) →
                    has_run (job_run_id j) (manifest_v2_index (store w2)) = true.
Proof.
  apply (C4_index_row_before_message
           (mkGlobals (Some "postgresql://aegis") (Some "redis://aegis"))
           api_ok "R1" req_T1_S1 (world0 store_R1_absent) "postgresql://aegis").
  - reflexivity.
  - reflexivity.
  - reflexivity.
  - reflexivity.
  - intros j Hj. simpl in Hj. by apply not_elem_of_nil in Hj.
Defined.

(** ** Without a Redis client *)

Lemma startup_no_redis raises env w0 g w1 :
  truthy (REDIS_URL env) = false →
  startup raises env w0 = (Return g, w1) →
  redis_client g = None ∧ is_Some (db_pool g).
Proof.
  intros Hr. unfold startup, await, logger, raise. unfold mbind, M_bind, mret, M_ret.
  rewrite Hr.
  destruct (DATABASE_URL env) as [url|] eqn:Edb; cbn [truthy negb]; [|done].
  destruct (bool_decide (url = "")); cbn [negb]; [done|].
  destruct (raises create_pool_44); [done|].
  intros [= <- _]. cbn. eauto.
Qed.

(** C10.  With [REDIS_URL] unset or empty at startup no Redis client is
    configured; a call of the enqueue endpoint whose INSERT goes through
    then creates the index row with status [queued] and answers
    [{run_id, status: "queued"}], but pushes nothing: the queue is the same
    in every store contents it commits, and however long the worker loop
    runs afterwards the run stays [queued]. *)
Theorem C10_no_redis_client env raises0 w0 g w1 raises uuid req w :
  truthy (REDIS_URL env) = false →
  startup raises0 env w0 = (Return g, w1) →
  raises acquire_175 = false → raises execute_176 = false →
  has_run uuid (manifest_v2_index (store w)) = false →
  not_queued uuid (store w) →
  let res := (run_pipeline g raises uuid req w).1 in
  let w' := (run_pipeline g raises uuid req w).2 in
  redis_client g = None ∧
  res = Return (mkResponse uuid "queued") ∧
  run_status uuid (store w') = Some "queued" ∧
  pipeline_queue (store w') = pipeline_queue (store w) ∧
  (∃ new, commits w' = (commits w ++ new)%list ∧
          Forall (λ s, pipeline_queue s = pipeline_queue (store w)) new) ∧
  ∀ oracles, run_status uuid (store (worker_loop oracles w').2) = Some "queued".
Proof.
  intros Hr Hstart H175 H176 Hfresh Hnq.
  destruct (startup_no_redis _ _ _ _ _ Hr Hstart) as [Hnone [url Hpool]].
  cbv zeta.
  destruct (run_pipeline g raises uuid req w) as [res w'] eqn:E. cbn [fst snd].
  revert E. run_api. rewrite Hpool, Hnone; simp_world.
  rewrite H175; simp_world. rewrite H176; simp_world. rewrite Hfresh; simp_world.
  intros [= <- <-]. simp_world.
  assert (run_status uuid
            (mkStore (manifest_v2_index (store w) ++
                        [mkIndexRow (req_tenant_id req) (req_store_id req) uuid
                           "queued" None (clock w) None])
                     (manifest_v2_modules (store w)) (pipeline_queue (store w)))
          = Some "queued") as Hst by (by apply run_status_inserted).
  split; [done|]. split; [done|]. split; [exact Hst|]. split; [done|]. split.
  - eexists. split; [reflexivity|]. by apply Forall_singleton.
  - intros oracles.
    match goal with |- run_status _ (store (worker_loop _ ?wq).2) = _ =>
      destruct (loop_frame uuid oracles wq Hnq _ eq_refl) as (_ & Hsame & _) end.
    unfold same_rows in Hsame. unfold run_status, get_run in *.
    rewrite Hsame. exact Hst.
Qed.

Lemma C10_witness :
  let g := mkGlobals (Some "postgresql://aegis") None in
  let res := (run_pipeline g api_ok "R1" req_T1_S1 (world0 store_R1_absent)).1 in
  let w' := (run_pipeline g api_ok "R1" req_T1_S1 (world0 store_R1_absent)).2 in
  redis_client g = None ∧
  res = Return (mkResponse "R1" "queued") ∧
  run_status "R1" (store w') = Some "queued" ∧
  pipeline_queue (store w') = [] ∧
  (∃ new, commits w' = (commits (world0 store_R1_absent) ++ new)%list ∧
          Forall (λ s, pipeline_queue s = []) new) ∧
  ∀ oracles, run_status "R1" (store (worker_loop oracles w').2) = Some "queued".
Proof.
  apply (C10_no_redis_client env_no_redis api_ok (world0 store_R1_absent)
           (mkGlobals (Some "postgresql://aegis") None)
           (startup api_ok env_no_redis (world0 store_R1_absent)).2
           api_ok "R1" req_T1_S1 (world0 store_R1_absent)).
  - reflexivity.
  - reflexivity.
  - reflexivity.
  - reflexivity.
  - reflexivity.
  - intros j Hj. simpl in Hj. by apply not_elem_of_nil in Hj.
Defined.

(** ** The worker process *)












(** ** The queue *)

Lemma job_log_starts raises job w :
  ∃ l, log (process_pipeline_job raises job w).2
       = (log w ++ mkLog info "pipeline_start"
                     [("run_id", VStr (job_run_id job));
                      ("tenant_id", VStr (job_tenant_id job));
                      ("store_id", VStr (job_store_id job))] :: l)%list.
Proof.
  job_cases raises.
  all: simp_world; rewrite <- ?(assoc_L (++)); cbn [app]; eexists; reflexivity.
Qed.

(** X4.  A message is delivered at most once.  A turn of the worker loop
    whose BRPOP does not raise takes the rightmost message off the queue
    and starts its job; whatever then raises, whether the run ends
    [completed], [failed] or neither, the message is not put back: the
    queue is the rest in every store contents the turn commits and in the
    one it leaves. *)
Theorem message_is_delivered_at_most_once raises w q j :
  raises brpop_123 = false →
  pipeline_queue (store w) = (q ++ [j])%list →
  let w' := (worker_iteration raises w).2 in
  pipeline_queue (store w') = q ∧
  (∃ new, commits w' = (commits w ++ new)%list ∧ Forall (λ s, pipeline_queue s = q) new) ∧
  mkLog info "pipeline_start"
    [("run_id", VStr (job_run_id j)); ("tenant_id", VStr (job_tenant_id j));
     ("store_id", VStr (job_store_id j))] ∈ log w'.
Proof.
  intros Hb Hq. cbv zeta.
  unfold worker_iteration, try_except, redis_brpop, await, pop_right, commit.
  unfold mbind, M_bind, mret, M_ret. rewrite Hb, Hq, reverse_snoc, reverse_involutive.
  simp_world.
  set (w1 := mkWorld _ _ _ _).
  destruct (job_frame raises j w1 _ eq_refl) as (new & Hnew & Hall & Hk).
  destruct (job_log_starts raises j w1) as (l & Hlog).
  assert (pipeline_queue (store (process_pipeline_job raises j w1).2) = q ∧
          (∃ new', commits (process_pipeline_job raises j w1).2 = (commits w ++ new')%list ∧
                   Forall (λ s, pipeline_queue s = q) new') ∧
          mkLog info "pipeline_start"
            [("run_id", VStr (job_run_id j)); ("tenant_id", VStr (job_tenant_id j));
             ("store_id", VStr (job_store_id j))]
          ∈ log (process_pipeline_job raises j w1).2) as Hjob.
  { split; [by destruct Hk as [-> _]|]. split.
    - exists (store w1 :: new). split.
      + rewrite Hnew. subst w1. simp_world. by rewrite <- (assoc_L (++)).
      + apply Forall_cons. split; [done|].
        eapply Forall_impl; [exact Hall|]. by intros s [-> _].
    - rewrite Hlog. apply elem_of_app. right. apply list_elem_of_here. }
  destruct (process_pipeline_job raises j w1) as [[[]|e] w2]; cbn [snd] in Hjob.
  { done. }
  unfold asyncio_sleep, await, logger, advance_clock, raise.
  unfold mbind, M_bind, mret, M_ret.
  destruct Hjob as (? & ? & Hin).
  destruct (is_Exception e); [destruct (raises sleep_132)|]; simp_world;
    (split; [done|]; split; [done|]; first [done | apply elem_of_app; by left]).
Qed.

Lemma message_is_delivered_at_most_once_witness :
  let w' := (worker_iteration (raise_at execute_77) (world0 store_R1_twice)).2 in
  pipeline_queue (store w') = [job_R1] ∧
  (∃ new, commits w' = (commits (world0 store_R1_twice) ++ new)%list ∧
          Forall (λ s, pipeline_queue s = [job_R1]) new) ∧
  mkLog info "pipeline_start"
    [("run_id", VStr "R1"); ("tenant_id", VStr "T1"); ("store_id", VStr "S1")] ∈ log w'.
Proof.
  apply (message_is_delivered_at_most_once (raise_at execute_77) (world0 store_R1_twice)
           [job_R1] job_R1); reflexivity.
Defined.



Lemma lpush_all_queue msgs w :
  pipeline_queue (store (lpush_all msgs w).2)
  = (reverse msgs ++ pipeline_queue (store w))%list.
Proof.
  revert w. induction msgs as [|m msgs IH]; intros w; [done|].
  cbn [lpush_all]. unfold mbind, M_bind. unfold push_left at 1, commit.
  rewrite IH. cbn [store pipeline_queue]. by rewrite reverse_cons, <- (assoc_L (++)).
Qed.

Lemma brpop_n_reverse timeout msgs w :
  pipeline_queue (store w) = reverse msgs →
  ∃ w2, brpop_n (length msgs) timeout w = (Return (Some <$> msgs), w2) ∧
        pipeline_queue (store w2) = [].
Proof.
  revert w. induction msgs as [|m msgs IH]; intros w Hq; [by exists w|].
  cbn [length brpop_n]. unfold mbind, M_bind. unfold pop_right at 1, commit.
  rewrite Hq, reverse_involutive. cbn [fst snd store commits clock log].
  set (w1 := mkWorld _ _ _ _).
  destruct (IH w1 eq_refl) as (w2 & -> & Hemp). by exists w2.
Qed.

(** X6.  The queue is first in, first out.  LPUSH at the left
    (main.py:188) and BRPOP at the right (worker.py:123): messages pushed
    one after another onto an empty queue come back, from as many pops,
    in the order they were pushed; after that the queue is empty and a
    further pop gives nothing. *)
Theorem queue_is_first_in_first_out msgs timeout w :
  pipeline_queue (store w) = [] →
  let w1 := (lpush_all msgs w).2 in
  let w2 := (brpop_n (length msgs) timeout w1).2 in
  (brpop_n (length msgs) timeout w1).1 = Return (Some <$> msgs) ∧
  pipeline_queue (store w2) = [] ∧
  (pop_right timeout w2).1 = Return None.
Proof.
  intros Hq. cbv zeta.
  assert (pipeline_queue (store (lpush_all msgs w).2) = reverse msgs) as H1
    by (by rewrite lpush_all_queue, Hq, app_nil_r).
  destruct (brpop_n_reverse timeout msgs _ H1) as (w2 & -> & Hemp). cbn [fst snd].
  split; [done|]. split; [done|]. unfold pop_right. by rewrite Hemp.
Qed.

Lemma queue_is_first_in_first_out_witness :
  let w1 := (lpush_all [job_R1; job_R2] (world0 store_R1_absent)).2 in
  let w2 := (brpop_n 2 5 w1).2 in
  (brpop_n 2 5 w1).1 = Return [Some job_R1; Some job_R2] ∧
  pipeline_queue (store w2) = [] ∧
  (pop_right 5 w2).1 = Return None.
Proof.
  apply (queue_is_first_in_first_out [job_R1; job_R2] 5 (world0 store_R1_absent)).
  reflexivity.
Defined.

(** ** What a job touches *)

(** X7.  A job touches its own run only.  Whatever raises,
    [process_pipeline_job] leaves the queue, the run ids of the index and
    the index rows and modules of every other run id as they were, in
    each store contents it commits and in the one it leaves. *)
Theorem job_touches_only_its_run raises job w :
  ∃ new, commits (process_pipeline_job raises job w).2 = (commits w ++ new)%list ∧
         Forall (job_keeps job (store w)) new ∧
         job_keeps job (store w) (store (process_pipeline_job raises job w).2).
Proof. exact (job_frame raises job w _ eq_refl). Qed.

(** ** Invariants of the shared store *)

Section Invariants.
Context {I : Store → Prop} (HI : StoreInvariant I).

Lemma invariant_here {A} (m : M A) :
  (∀ w, (m w).2 = w) → invariant I m.
Proof.
  intros Hm w Hw. rewrite Hm. exists []. by rewrite app_nil_r.
Qed.

Lemma invariant_quiet {A} (m : M A) :
  (∀ w, store (m w).2 = store w ∧ commits (m w).2 = commits w) → invariant I m.
Proof.
  intros Hm w Hw. destruct (Hm w) as [-> ->]. exists []. by rewrite app_nil_r.
Qed.

Lemma invariant_ret {A} (a : A) : invariant I (mret a).
Proof. by apply invariant_here. Qed.

Lemma invariant_raise {A} e : invariant I (raise e : M A).
Proof. by apply invariant_here. Qed.

Lemma invariant_await fails site : invariant I (await fails site).
Proof. apply invariant_here. intros w. by destruct fails. Qed.

Lemma invariant_logger lvl ev fs : invariant I (logger lvl ev fs).
Proof. by apply invariant_quiet. Qed.

Lemma invariant_advance_clock secs : invariant I (advance_clock secs).
Proof. by apply invariant_quiet. Qed.

Lemma invariant_sleep cancelled secs : invariant I (asyncio_sleep cancelled secs).
Proof. apply invariant_quiet. intros w. by destruct cancelled. Qed.

Lemma invariant_bind {A B} (m : M A) (k : A → M B) :
  invariant I m → (∀ a, invariant I (k a)) → invariant I (m ≫= k).
Proof.
  intros Hm Hk w Hw. unfold mbind, M_bind.
  destruct (Hm w Hw) as (new1 & Hc1 & Hall1 & H1).
  destruct (m w) as [[a|e] w1]; cbn [snd] in *.
  - destruct (Hk a w1 H1) as (new2 & Hc2 & Hall2 & H2).
    exists (new1 ++ new2)%list. rewrite Hc2, Hc1, <- (assoc_L (++)).
    split; [done|]. split; [|done]. apply Forall_app. by split.
  - by exists new1.
Qed.

Lemma invariant_try {A} (body : M A) (handler : Exn → M A) :
  invariant I body → (∀ e, invariant I (handler e)) → invariant I (try_except body handler).
Proof.
  intros Hm Hk w Hw. unfold try_except.
  destruct (Hm w Hw) as (new1 & Hc1 & Hall1 & H1).
  destruct (body w) as [[a|e] w1]; cbn [snd] in *.
  - by exists new1.
  - destruct (is_Exception e); [|by exists new1].
    destruct (Hk e w1 H1) as (new2 & Hc2 & Hall2 & H2).
    exists (new1 ++ new2)%list. rewrite Hc2, Hc1, <- (assoc_L (++)).
    split; [done|]. split; [|done]. apply Forall_app. by split.
Qed.

Lemma invariant_run_sql q : issued q → invariant I (run_sql q).
Proof.
  intros Hq w Hw. unfold run_sql, commit.
  destruct (exec_sql q (clock w) (store w)) as [e|s] eqn:E; cbn [snd store commits].
  - exists []. by rewrite app_nil_r.
  - pose proof (inv_sql I HI _ _ _ _ Hq Hw E) as Hs.
    exists [s]. split; [done|]. split; [by apply Forall_singleton|done].
Qed.

Lemma invariant_push_left msg : invariant I (push_left msg).
Proof.
  intros w Hw. unfold push_left, commit. cbn [snd store commits].
  pose proof (inv_queue I HI _ (msg :: pipeline_queue (store w)) Hw) as Hs.
  eexists [_]. split; [done|]. split; [by apply Forall_singleton|done].
Qed.

Lemma invariant_pop_right timeout : invariant I (pop_right timeout).
Proof.
  intros w Hw. unfold pop_right, commit.
  destruct (reverse (pipeline_queue (store w))) as [|msg rest]; cbn [snd store commits].
  - exists []. by rewrite app_nil_r.
  - pose proof (inv_queue I HI _ (reverse rest) Hw) as Hs.
    eexists [_]. split; [done|]. split; [by apply Forall_singleton|done].
Qed.

(** One step of the syntax-directed proof that a computation built from
    the primitives above keeps [I]. *)
Ltac invariant_step :=
  first [ apply invariant_sleep | apply invariant_bind | apply invariant_try
        | apply invariant_ret
        | apply invariant_raise | apply invariant_await | apply invariant_logger
        | apply invariant_advance_clock | apply invariant_push_left
        | apply invariant_pop_right
        | apply invariant_run_sql; cbn [issued]; first [done | set_solver]
        | intros ? ].

Lemma invariant_job raises job : invariant I (process_pipeline_job raises job).
Proof.
  unfold process_pipeline_job, conn_execute, db_pool_acquire. cbv zeta.
  repeat invariant_step.
Qed.

Lemma invariant_iteration raises : invariant I (worker_iteration raises).
Proof.
  unfold worker_iteration, redis_brpop.
  apply invariant_try.
  - apply invariant_bind; [repeat invariant_step|].
    intros [job_data|]; [apply invariant_job | apply invariant_ret].
  - repeat invariant_step.
Qed.

Lemma invariant_loop oracles : invariant I (worker_loop oracles).
Proof.
  induction oracles as [|raises rest IH]; cbn [worker_loop].
  - apply invariant_ret.
  - apply invariant_bind; [apply invariant_iteration | intros _; exact IH].
Qed.

Lemma invariant_run_pipeline g raises uuid req : invariant I (run_pipeline g raises uuid req).
Proof.
  unfold run_pipeline, conn_execute, db_pool_acquire, redis_lpush. cbv zeta.
  apply invariant_bind; [apply invariant_logger|intros _].
  apply invariant_bind; [destruct (db_pool g); repeat invariant_step|intros _].
  apply invariant_bind; [destruct (redis_client g); repeat invariant_step|intros _].
  repeat invariant_step.
Qed.

Lemma invariant_ops ops w :
  I (store w) →
  ∃ new, commits (run_ops ops w) = (commits w ++ new)%list ∧ Forall I new ∧
         I (store (run_ops ops w)).
Proof.
  revert w. induction ops as [|o ops IH]; intros w Hw.
  { exists []. by rewrite app_nil_r. }
  assert (∃ new, commits (run_op w o) = (commits w ++ new)%list ∧ Forall I new ∧
                 I (store (run_op w o))) as (new1 & Hc1 & Hall1 & H1).
  { destruct o as [g raises uuid req|raises]; cbn [run_op].
    - by apply invariant_run_pipeline.
    - by apply invariant_iteration. }
  destruct (IH _ H1) as (new2 & Hc2 & Hall2 & H2).
  exists (new1 ++ new2)%list. unfold run_ops in *. cbn [foldl].
  rewrite Hc2, Hc1, <- (assoc_L (++)).
  split; [done|]. split; [|done]. apply Forall_app. by split.
Qed.
End Invariants.

Lemma update_where_ident r f ix :
  (∀ row, ix_ident (f row) = ix_ident row) →
  ix_ident <$> update_where r f ix = ix_ident <$> ix.
Proof.
  intros Hf. unfold update_where. rewrite <- list_fmap_compose.
  apply list_fmap_ext. intros _ row _. simpl. by destruct (decide _).
Qed.

Lemma ident_invariant s0 :
  StoreInvariant (λ s, ix_ident <$> manifest_v2_index s0 `prefix_of`
                       ix_ident <$> manifest_v2_index s).
Proof.
  split; [|done].
  intros q now s s' _ Hs Hq. destruct q; cbn [exec_sql] in Hq.
  - injection Hq as <-. cbn [manifest_v2_index]. by rewrite update_where_ident.
  - destruct (has_module _ _ _); [done|]. by injection Hq as <-.
  - injection Hq as <-. cbn [manifest_v2_index]. by rewrite update_where_ident.
  - injection Hq as <-. cbn [manifest_v2_index]. by rewrite update_where_ident.
  - destruct (has_run _ _); [done|]. injection Hq as <-. cbn [manifest_v2_index].
    rewrite fmap_app. by apply prefix_app_r.
Qed.

(** X8.  Whatever calls of the enqueue endpoint and turns of the worker
    loop follow one another, and whichever awaited calls raise, no row of
    the Run Index is deleted, moved or re-keyed: tenant id, store id, run id
    and [created_at] of the rows of the index stay, in their order, a
    prefix of those of every store contents committed later. *)
Theorem index_rows_are_never_removed ops w :
  ∃ new, commits (run_ops ops w) = (commits w ++ new)%list ∧
         Forall (λ s, ix_ident <$> manifest_v2_index (store w) `prefix_of`
                      ix_ident <$> manifest_v2_index s) new ∧
         ix_ident <$> manifest_v2_index (store w) `prefix_of`
         ix_ident <$> manifest_v2_index (store (run_ops ops w)).
Proof. by apply (invariant_ops (ident_invariant (store w))). Qed.

Lemma modules_invariant s0 :
  StoreInvariant (λ s, manifest_v2_modules s0 `prefix_of` manifest_v2_modules s).
Proof.
  split; [|done].
  intros q now s s' _ Hs Hq. destruct q; cbn [exec_sql] in Hq.
  - by injection Hq as <-.
  - destruct (has_module _ _ _); [done|]. injection Hq as <-. cbn [manifest_v2_modules].
    by apply prefix_app_r.
  - by injection Hq as <-.
  - by injection Hq as <-.
  - destruct (has_run _ _); [done|]. by injection Hq as <-.
Qed.

(** X9.  The modules table only grows at its end: through any calls of
    the enqueue endpoint and turns of the worker loop, with any awaited
    calls raising, the modules stored before are a prefix of the table in
    every store contents committed later; no module is rewritten or
    deleted. *)
Theorem modules_are_append_only ops w :
  ∃ new, commits (run_ops ops w) = (commits w ++ new)%list ∧
         Forall (λ s, manifest_v2_modules (store w) `prefix_of` manifest_v2_modules s) new ∧
         manifest_v2_modules (store w) `prefix_of` manifest_v2_modules (store (run_ops ops w)).
Proof. by apply (invariant_ops (modules_invariant (store w))). Qed.

Lemma row_ok_update r f ix :
  (∀ row, row_ok row → row_ok (f row)) →
  Forall row_ok ix → Forall row_ok (update_where r f ix).
Proof.
  intros Hf Hix. unfold update_where. apply Forall_fmap.
  eapply Forall_impl; [exact Hix|]. intros row Hrow. simpl.
  destruct (decide _); [by apply Hf|done].
Qed.

Lemma row_ok_invariant : StoreInvariant (λ s, Forall row_ok (manifest_v2_index s)).
Proof.
  split; [|done].
  intros q now s s' Hi Hs Hq. destruct q; cbn [exec_sql] in Hq.
  - injection Hq as <-. cbn [manifest_v2_index]. apply row_ok_update; [|done].
    intros row (_ & Hdr & _ & _). unfold row_ok, set_status. cbn.
    split; [set_solver|]. split; [done|]. split; discriminate.
  - destruct (has_module _ _ _); [done|]. by injection Hq as <-.
  - injection Hq as <-. cbn [manifest_v2_index]. apply row_ok_update; [|done].
    intros row _. cbn [issued] in Hi. subst deploy_ready.
    unfold row_ok, set_completed. cbn.
    split; [set_solver|]. split; [done|]. split; [done|discriminate].
  - injection Hq as <-. cbn [manifest_v2_index]. apply row_ok_update; [|done].
    intros row (_ & Hdr & _ & _). unfold row_ok, set_status. cbn.
    split; [set_solver|]. split; [done|]. split; discriminate.
  - destruct (has_run _ _); [done|]. injection Hq as <-. cbn [manifest_v2_index].
    apply Forall_app. split; [done|]. apply Forall_singleton.
    unfold row_ok. cbn. split; [set_solver|]. done.
Qed.

(** X10.  The run states the code writes.  If every row of the index has a
    status among [queued], [processing], [completed] and [failed], no
    [deploy_ready = false], [deploy_ready = true] when [completed], and
    neither [deploy_ready] nor [updated_at] set while [queued], then so
    has every row of every store contents committed by any calls of the
    enqueue endpoint and turns of the worker loop, whichever awaited
    calls raise. *)
Theorem index_rows_stay_well_formed ops w :
  Forall row_ok (manifest_v2_index (store w)) →
  ∃ new, commits (run_ops ops w) = (commits w ++ new)%list ∧
         Forall (λ s, Forall row_ok (manifest_v2_index s)) new ∧
         Forall row_ok (manifest_v2_index (store (run_ops ops w))).
Proof. apply (invariant_ops row_ok_invariant). Qed.

Lemma index_rows_stay_well_formed_witness :
  let ops := [Enqueue (mkGlobals (Some "postgresql://aegis") (Some "redis://aegis"))
                api_ok "R2" req_T1_S1;
              WorkerTurn no_raise; WorkerTurn (raise_at execute_87)] in
  ∃ new, commits (run_ops ops (world0 store_R1_twice))
         = (commits (world0 store_R1_twice) ++ new)%list ∧
         Forall (λ s, Forall row_ok (manifest_v2_index s)) new ∧
         Forall row_ok (manifest_v2_index (store (run_ops ops (world0 store_R1_twice)))).
Proof.
  apply (index_rows_stay_well_formed _ (world0 store_R1_twice)).
  apply Forall_singleton. unfold row_ok. simpl. split; [set_solver|done].
Defined.

Lemma has_module_fetch r n s :
  has_module r n (manifest_v2_modules s) = true ↔ n ∈ mod_name <$> fetch_modules r s.
Proof.
  unfold has_module, fetch_modules. rewrite bool_decide_eq_true, !list_elem_of_fmap.
  split.
  - intros (m & [= -> ->] & Hm). exists m. split; [done|]. by apply list_elem_of_filter.
  - intros (m & -> & [<- Hm]%list_elem_of_filter). by exists m.
Qed.

Lemma dom_list_modules r s n :
  n ∈ dom (list_modules r s) ↔ has_module r n (manifest_v2_modules s) = true.
Proof.
  unfold list_modules. rewrite dom_foldl_insert, has_module_fetch. set_solver.
Qed.

Lemma frozen_invariant r s0 :
  three_modules ⊆ dom (list_modules r s0) →
  StoreInvariant (λ s, fetch_modules r s = fetch_modules r s0).
Proof.
  intros H3. split; [|done].
  intros q now s s' Hi Hs Hq. destruct q; cbn [exec_sql] in Hq.
  - by injection Hq as <-.
  - destruct (has_module _ _ _) eqn:Hm; [done|]. injection Hq as <-.
    unfold fetch_modules in *. cbn [manifest_v2_modules].
    rewrite filter_app, filter_cons, filter_nil. cbn [mod_run_id].
    destruct (decide (run_id = r)) as [->|Hne]; [|by rewrite app_nil_r].
    exfalso. cbn [issued] in Hi.
    assert (name ∈ dom (list_modules r s0)) as Hin.
    { apply H3. unfold three_modules. set_solver. }
    apply dom_list_modules, has_module_fetch in Hin.
    unfold fetch_modules in Hin. rewrite <- Hs in Hin.
    apply (has_module_fetch r name s) in Hin. congruence.
  - by injection Hq as <-.
  - by injection Hq as <-.
  - destruct (has_run _ _); [done|]. by injection Hq as <-.
Qed.

(** X11.  A manifest that holds the three modules is frozen.  Once listing
    the modules of a run gives audit, decision and deployment, no calls of
    the enqueue endpoint and no turns of the worker loop change that
    listing, whichever awaited calls raise and even when the job message
    of the run is delivered again: a second INSERT of a module of the run
    meets the key (run id, module name). *)
Theorem complete_manifest_is_frozen ops w r :
  three_modules ⊆ dom (list_modules r (store w)) →
  ∃ new, commits (run_ops ops w) = (commits w ++ new)%list ∧
         Forall (λ s, list_modules r s = list_modules r (store w)) new ∧
         list_modules r (store (run_ops ops w)) = list_modules r (store w).
Proof.
  intros H3.
  destruct (invariant_ops (frozen_invariant r (store w) H3) ops w eq_refl)
    as (new & Hc & Hall & Hf).
  exists new. split; [done|]. unfold list_modules. split; [|by rewrite Hf].
  eapply Forall_impl; [exact Hall|]. intros s Hs. simpl in Hs. by rewrite Hs.
Qed.

Lemma complete_manifest_is_frozen_witness :
  let w := (worker_loop [no_raise] (world0 store_R1_twice)).2 in
  let ops := [WorkerTurn no_raise] in
  ∃ new, commits (run_ops ops w) = (commits w ++ new)%list ∧
         Forall (λ s, list_modules "R1" s = list_modules "R1" (store w)) new ∧
         list_modules "R1" (store (run_ops ops w)) = list_modules "R1" (store w).
Proof.
  apply (complete_manifest_is_frozen [WorkerTurn no_raise]
           (worker_loop [no_raise] (world0 store_R1_twice)).2 "R1").
  intros n Hn. apply dom_list_modules.
  unfold three_modules in Hn.
  apply elem_of_union in Hn as [Hn|Hn]; [apply elem_of_union in Hn as [Hn|Hn]|];
    apply elem_of_singleton in Hn; subst n; vm_compute; reflexivity.
Defined.

(** ** The enqueue endpoint, case by case *)

(** X12.  What a call of the enqueue endpoint leaves behind.  It never
    touches the modules.  If it returns, the answer is [{run_id, status:
    "queued"}], the run id was not in the index, the index has gained
    exactly the [queued] row of the run, stamped with the time of the
    call, and the queue, with a Redis client, exactly its message at the
    left.  If it raises, nothing was pushed and [pipeline_queued] is not
    logged; the index is as before, unless the raise is the one of the
    LPUSH (main.py:188): the row inserted before it is not taken back. *)
Theorem run_pipeline_outcome g raises uuid req w :
  let res := (run_pipeline g raises uuid req w).1 in
  let w' := (run_pipeline g raises uuid req w).2 in
  let row := mkIndexRow (req_tenant_id req) (req_store_id req) uuid "queued" None
               (clock w) None in
  let msg := mkJob uuid (req_tenant_id req) (req_store_id req) (req_product_data req) in
  manifest_v2_modules (store w') = manifest_v2_modules (store w) ∧
  (∀ resp, res = Return resp →
     resp = mkResponse uuid "queued" ∧
     has_run uuid (manifest_v2_index (store w)) = false ∧
     manifest_v2_index (store w') = (manifest_v2_index (store w) ++ [row])%list ∧
     pipeline_queue (store w')
     = match redis_client g with
       | Some _ => msg :: pipeline_queue (store w)
       | None => pipeline_queue (store w)
       end) ∧
  (∀ e, res = Raise e →
     pipeline_queue (store w') = pipeline_queue (store w) ∧
     log w' = (log w ++ [mkLog info "pipeline_enqueue"
                           [("tenant_id", VStr (req_tenant_id req));
                            ("store_id", VStr (req_store_id req))]])%list ∧
     (manifest_v2_index (store w') = manifest_v2_index (store w) ∨
      manifest_v2_index (store w') = (manifest_v2_index (store w) ++ [row])%list ∧
      e = ConnectionError "main.py:188")).
Proof.
  cbv zeta.
  destruct (run_pipeline g raises uuid req w) as [res w'] eqn:E. revert E.
  api_cases g raises uuid.
  all: intros [= <- <-]; simp_world.
  all: split; [reflexivity|].
  all: split; [intros resp Hres | intros e Hres]; try discriminate Hres.
  all: try (injection Hres as <-).
  all: try done.
  all: split; [reflexivity|]; split; [reflexivity|].
  all: first [by left | by right].
Qed.

(** X13.  No compensation when the push fails.  With a Redis client whose
    LPUSH raises, the call of the enqueue endpoint raises after its INSERT
    went through: the caller gets no run id, the run is in the index as
    [queued] with no message on the queue, and it stays [queued] however
    long the worker loop runs. *)
Theorem failed_push_leaves_queued_run g raises uuid req w pool client :
  db_pool g = Some pool → redis_client g = Some client →
  raises acquire_175 = false → raises execute_176 = false → raises lpush_188 = true →
  has_run uuid (manifest_v2_index (store w)) = false →
  not_queued uuid (store w) →
  let res := (run_pipeline g raises uuid req w).1 in
  let w' := (run_pipeline g raises uuid req w).2 in
  res = Raise (ConnectionError "main.py:188") ∧
  run_status uuid (store w') = Some "queued" ∧
  pipeline_queue (store w') = pipeline_queue (store w) ∧
  ∀ oracles, run_status uuid (store (worker_loop oracles w').2) = Some "queued".
Proof.
  intros Hpool Hclient H175 H176 H188 Hfresh Hnq. cbv zeta.
  destruct (run_pipeline g raises uuid req w) as [res w'] eqn:E. cbn [fst snd].
  revert E. run_api. rewrite Hpool, Hclient; simp_world.
  rewrite H175; simp_world. rewrite H176; simp_world. rewrite Hfresh; simp_world.
  rewrite H188; simp_world.
  intros [= <- <-]. simp_world.
  assert (run_status uuid
            (mkStore (manifest_v2_index (store w) ++
                        [mkIndexRow (req_tenant_id req) (req_store_id req) uuid
                           "queued" None (clock w) None])
                     (manifest_v2_modules (store w)) (pipeline_queue (store w)))
          = Some "queued") as Hst by (by apply run_status_inserted).
  split; [done|]. split; [exact Hst|]. split; [done|].
  intros oracles.
  match goal with |- run_status _ (store (worker_loop _ ?wq).2) = _ =>
    destruct (loop_frame uuid oracles wq Hnq _ eq_refl) as (_ & Hsame & _) end.
  unfold same_rows in Hsame. unfold run_status, get_run in *.
  rewrite Hsame. exact Hst.
Qed.

Lemma failed_push_leaves_queued_run_witness :
  let g := mkGlobals (Some "postgresql://aegis") (Some "redis://aegis") in
  let raises := λ a, match a with lpush_188 => true | _ => false end in
  let res := (run_pipeline g raises "R1" req_T1_S1 (world0 store_R1_absent)).1 in
  let w' := (run_pipeline g raises "R1" req_T1_S1 (world0 store_R1_absent)).2 in
  res = Raise (ConnectionError "main.py:188") ∧
  run_status "R1" (store w') = Some "queued" ∧
  pipeline_queue (store w') = [] ∧
  ∀ oracles, run_status "R1" (store (worker_loop oracles w').2) = Some "queued".
Proof.
  apply (failed_push_leaves_queued_run
           (mkGlobals (Some "postgresql://aegis") (Some "redis://aegis"))
           (λ a, match a with lpush_188 => true | _ => false end)
           "R1" req_T1_S1 (world0 store_R1_absent) "postgresql://aegis" "redis://aegis").
  - reflexivity.
  - reflexivity.
  - reflexivity.
  - reflexivity.
  - reflexivity.
  - reflexivity.
  - intros j Hj. simpl in Hj. by apply not_elem_of_nil in Hj.
Defined.

(** ** Startup *)

(** X14.  What [startup] guarantees.  With [DATABASE_URL] unset or empty
    it raises [RuntimeError("DATABASE_URL not set")] before any connection
    is tried and anything is logged.  When it returns, the pool handle is
    set, the Redis handle is set exactly when [REDIS_URL] is a non-empty
    string, the shared store is untouched, and no later call of the
    enqueue endpoint fails on a missing pool. *)
Theorem startup_outcome raises env w :
  (truthy (DATABASE_URL env) = false →
   startup raises env w = (Raise (RuntimeError "DATABASE_URL not set"), w)) ∧
  (∀ g w', startup raises env w = (Return g, w') →
     is_Some (db_pool g) ∧
     (is_Some (redis_client g) ↔ truthy (REDIS_URL env) = true) ∧
     store w' = store w ∧ commits w' = commits w ∧
     ∀ raises' uuid req w1 msg,
       (run_pipeline g raises' uuid req w1).1 ≠ Raise (AttributeError msg)).
Proof.
  split.
  { intros H. unfold startup. by rewrite H. }
  intros g w'. unfold startup, await, logger, raise. unfold mbind, M_bind, mret, M_ret.
  destruct (DATABASE_URL env) as [url|] eqn:Edb; cbn [truthy negb]; [|done].
  destruct (bool_decide (url = "")); cbn [negb]; [done|].
  destruct (raises create_pool_44); [done|]. simp_world.
  assert (∀ g0, db_pool g0 = Some url →
            ∀ raises' uuid req w1 msg,
              (run_pipeline g0 raises' uuid req w1).1 ≠ Raise (AttributeError msg)) as Hrun.
  { intros g0 Hg0 raises' uuid req w1 msg.
    destruct (run_pipeline g0 raises' uuid req w1) as [res w2] eqn:E. revert E.
    run_api. rewrite Hg0; simp_world.
    site raises' acquire_175; site raises' execute_176;
      try (destruct (has_run uuid _); simp_world);
      try (destruct (redis_client g0); simp_world);
      site raises' lpush_188.
    all: by intros [= <- <-]. }
  destruct (truthy (REDIS_URL env)) eqn:Er.
  - destruct (raises from_url_55); [done|]. simp_world.
    intros [= <- <-]. cbn [db_pool redis_client store commits].
    split; [by eexists|]. split; [|split; [done|split; [done|by apply Hrun]]].
    split; [done|]. intros _. destruct (REDIS_URL env); [by eexists|done].
  - intros [= <- <-]. cbn [db_pool redis_client store commits].
    split; [by eexists|]. split; [|split; [done|split; [done|by apply Hrun]]].
    split; [by intros [? ?]|done].
Qed.

(** ** The health check *)

Ltac run_health :=
  unfold health, try_except, db_pool_acquire, await, raise;
  unfold mbind, M_bind, mret, M_ret; cbv zeta.

(** The ways through [health]: the two handles, then the three probes. *)
Ltac health_cases g f :=
  run_health;
  destruct (db_pool g) as [?|] eqn:?; destruct (redis_client g) as [?|] eqn:?;
  cbn [fst snd];
  site f acquire_76; site f fetchval_77; site f ping_85.

(** X15.  The health check never fails and writes nothing.  Whatever the
    handles are and whichever of its probes raise, [health] returns a
    body and leaves the shared store, the clock and the log as they
    were: an error of a probe ends up in the body, not in the answer's
    outcome. *)
Theorem health_never_raises g raises w :
  ∃ r, health g raises w = (Return r, w).
Proof.
  health_cases g raises; eexists; reflexivity.
Qed.

(** X16.  What the health check reports.  The body always has the check
    [api: ok]; it has a [postgres] check exactly when the pool handle is
    set and a [redis] check exactly when the Redis handle is set, each
    [ok] exactly when its probe did not raise.  The status is [degraded]
    exactly when a probe of a handle that is set raised, and [healthy]
    otherwise: a backend that was never connected is not probed and does
    not count against the status. *)
Theorem health_status g raises w :
  ∃ r, (health g raises w).1 = Return r ∧
    hr_checks r !! "api" = Some "ok" ∧
    (is_Some (hr_checks r !! "postgres") ↔ is_Some (db_pool g)) ∧
    (is_Some (hr_checks r !! "redis") ↔ is_Some (redis_client g)) ∧
    (hr_checks r !! "postgres" = Some "ok" ↔
       is_Some (db_pool g) ∧ raises acquire_76 = false ∧ raises fetchval_77 = false) ∧
    (hr_checks r !! "redis" = Some "ok" ↔
       is_Some (redis_client g) ∧ raises ping_85 = false) ∧
    (hr_status r = "degraded" ↔
       (is_Some (db_pool g) ∧ (raises acquire_76 = true ∨ raises fetchval_77 = true)) ∨
       (is_Some (redis_client g) ∧ raises ping_85 = true)) ∧
    (hr_status r = "healthy" ∨ hr_status r = "degraded").
Proof.
  health_cases g raises.
  all: eexists; split; [reflexivity|]; cbn [hr_checks hr_status].
  all: match goal with |- context [all_ok ?m] =>
         let b := eval vm_compute in (all_ok m) in
         replace (all_ok m) with b by (vm_compute; reflexivity) end.
  all: rewrite ?is_Some_alt; cbn [exn_str String.append].
  all: repeat match goal with |- context [?m !! ?k] =>
         let v := eval vm_compute in (m !! k) in
         replace (m !! k) with v by (vm_compute; reflexivity) end.
  all: repeat split; try (intros; discriminate); try done.
  all: naive_solver.
Qed.

(** X17.  An API without Redis reports healthy.  Started with
    [REDIS_URL] unset or empty, the API has no Redis client; its health
    check, the Postgres probe going through, then answers [healthy] with
    the checks [api] and [postgres] and no [redis] check, although no
    call of the enqueue endpoint can put a job on the queue. *)
Theorem health_without_redis raises0 env w0 g w1 raises w :
  truthy (REDIS_URL env) = false →
  startup raises0 env w0 = (Return g, w1) →
  raises acquire_76 = false → raises fetchval_77 = false →
  health g raises w
  = (Return (mkHealthResponse "healthy" (<["postgres" := "ok"]> {[ "api" := "ok" ]})), w).
Proof.
  intros Hr Hstart H76 H77.
  destruct (startup_no_redis _ _ _ _ _ Hr Hstart) as [Hnone [url Hpool]].
  run_health. rewrite Hpool, Hnone, H76, H77. cbn [fst snd].
  replace (all_ok (<["postgres" := "ok"]> {[ "api" := "ok" ]})) with true
    by (vm_compute; reflexivity).
  reflexivity.
Qed.

Lemma health_without_redis_witness :
  health (mkGlobals (Some "postgresql://aegis") None) health_ok (world0 store_R1_absent)
  = (Return (mkHealthResponse "healthy" (<["postgres" := "ok"]> {[ "api" := "ok" ]})),
     world0 store_R1_absent).
Proof.
  apply (health_without_redis api_ok env_no_redis (world0 store_R1_absent)
           (mkGlobals (Some "postgresql://aegis") None)
           (startup api_ok env_no_redis (world0 store_R1_absent)).2
           health_ok (world0 store_R1_absent)); reflexivity.
Defined.

(** ** Onboarding *)

Lemma profiles_starter :
  profiles !!! "starter" = mkProfileDetails 79 {[ "videos" := false; "mlops" := false ]}.
Proof. vm_compute. reflexivity. Qed.

Lemma profiles_pro :
  profiles !!! "pro" = mkProfileDetails 249 {[ "videos" := true; "mlops" := false ]}.
Proof. vm_compute. reflexivity. Qed.

Lemma profiles_enterprise :
  profiles !!! "enterprise" = mkProfileDetails 990 {[ "videos" := true; "mlops" := true ]}.
Proof. vm_compute. reflexivity. Qed.

(** [profiles[profile]] never meets a missing key. *)
Lemma select_profile_in_profiles req :
  is_Some (profiles !! (select_profile req).1).
Proof.
  unfold select_profile. repeat case_bool_decide; cbn [fst]; vm_compute; eauto.
Qed.

Ltac run_onboarding :=
  unfold onboarding, db_pool_acquire, await, logger, NOW, raise;
  unfold mbind, M_bind, mret, M_ret; cbv zeta; simp_world.

(** What a call of [onboarding] that returns has done. *)
Lemma onboarding_returns g raises req tenants w resp tenants' w' :
  onboarding g raises req tenants w = (Return (resp, tenants'), w') →
  let profile := (select_profile req).1 in
  resp = mkProfileResponse profile (price (profiles !!! profile))
           (features (profiles !!! profile)) (select_profile req).2 ∧
  tenants' = upsert_tenant (onb_tenant_id req) profile (onb_revenue_monthly req)
               (onb_ad_budget_monthly req) (clock w) tenants ∧
  store w' = store w ∧ commits w' = commits w ∧ clock w' = clock w.
Proof.
  run_onboarding.
  destruct (db_pool g); simp_world; [|done].
  site raises acquire_141; [done|]. site raises execute_142; [done|].
  by intros [= <- <- <-].
Qed.

Lemma onboarding_runs g raises req tenants w pool :
  db_pool g = Some pool → raises acquire_141 = false → raises execute_142 = false →
  let profile := (select_profile req).1 in
  (onboarding g raises req tenants w).1
  = Return (mkProfileResponse profile (price (profiles !!! profile))
              (features (profiles !!! profile)) (select_profile req).2,
            upsert_tenant (onb_tenant_id req) profile (onb_revenue_monthly req)
              (onb_ad_budget_monthly req) (clock w) tenants).
Proof.
  intros Hp H1 H2. run_onboarding. rewrite Hp; simp_world.
  rewrite H1; simp_world. by rewrite H2.
Qed.

(** X18.  The profile a tenant gets.  Whenever [onboarding] returns, the
    profile of its answer is [enterprise] exactly when the monthly
    revenue is above 50000, or the ad budget is at most 5000 and there
    are more than three target countries; [starter] exactly when none of
    the four thresholds is exceeded; [pro] in the remaining cases.  Price
    and features go with the profile: 79, 249 or 990, videos from [pro]
    on, MLOps for [enterprise] alone. *)
Theorem onboarding_decision_table g raises req tenants w resp tenants' w' :
  onboarding g raises req tenants w = (Return (resp, tenants'), w') →
  let revenue := onb_revenue_monthly req in
  let ad_budget := onb_ad_budget_monthly req in
  let countries := Z.of_nat (length (onb_target_countries req)) in
  let products := onb_product_count req in
  (pr_profile resp = "enterprise" ↔
     (50000 < revenue ∨ (ad_budget ≤ 5000 ∧ 3 < countries))%Z) ∧
  (pr_profile resp = "pro" ↔
     (revenue ≤ 50000 ∧ (5000 < ad_budget ∨ (countries ≤ 3 ∧ 5 < products)))%Z) ∧
  (pr_profile resp = "starter" ↔
     (revenue ≤ 50000 ∧ ad_budget ≤ 5000 ∧ countries ≤ 3 ∧ products ≤ 5)%Z) ∧
  (pr_profile resp, pr_monthly_price_eur resp,
   pr_features resp !! "videos", pr_features resp !! "mlops")
  ∈ [ ("starter", 79%Z, Some false, Some false);
      ("pro", 249%Z, Some true, Some false);
      ("enterprise", 990%Z, Some true, Some true) ].
Proof.
  intros H. destruct (onboarding_returns _ _ _ _ _ _ _ _ H) as (-> & _). cbv zeta.
  cbn [pr_profile pr_monthly_price_eur pr_features].
  unfold select_profile. repeat case_bool_decide; cbn [fst snd].
  all: rewrite ?profiles_starter, ?profiles_pro, ?profiles_enterprise; cbn [price features].
  all: split; [split; [try discriminate; intros; lia | intros; try lia; done]|].
  all: split; [split; [try discriminate; intros; lia | intros; try lia; done]|].
  all: split; [split; [try discriminate; intros; lia | intros; try lia; done]|].
  all: set_solver.
Qed.

Lemma onboarding_decision_table_witness :
  let resp := mkProfileResponse "enterprise" 990 {[ "videos" := true; "mlops" := true ]}
                "multi-country" in
  (pr_profile resp = "enterprise" ↔ (50000 < 20000 ∨ (3000 ≤ 5000 ∧ 3 < 4))%Z) ∧
  (pr_profile resp = "pro" ↔ (20000 ≤ 50000 ∧ (5000 < 3000 ∨ (4 ≤ 3 ∧ 5 < 2)))%Z) ∧
  (pr_profile resp = "starter" ↔ (20000 ≤ 50000 ∧ 3000 ≤ 5000 ∧ 4 ≤ 3 ∧ 2 ≤ 5)%Z) ∧
  (pr_profile resp, pr_monthly_price_eur resp,
   pr_features resp !! "videos", pr_features resp !! "mlops")
  ∈ [ ("starter", 79%Z, Some false, Some false);
      ("pro", 249%Z, Some true, Some false);
      ("enterprise", 990%Z, Some true, Some true) ].
Proof.
  apply (onboarding_decision_table globals_connected onboarding_ok onboarding_T1 []
           (world0 store_R1_absent)
           (mkProfileResponse "enterprise" 990 {[ "videos" := true; "mlops" := true ]}
              "multi-country")
           [mkTenantRow "T1" "enterprise" 20000 3000 0 None]
           (mkWorld store_R1_absent 0
              [mkLog info "onboarding_start" [("tenant_id", VStr "T1")];
               mkLog info "onboarding_complete"
                 [("tenant_id", VStr "T1"); ("profile", VStr "enterprise")]] [])).
  vm_compute. reflexivity.
Defined.

(** X19.  A larger ad budget can lower the tier.  The ad-budget rule
    comes before the multi-country rule: of two requests with a monthly
    revenue of at most 50000 and more than three target countries that
    differ in the ad budget alone, the one with at most 5000 is answered
    [enterprise] at 990 with MLOps, the one above 5000 [pro] at 249
    without. *)
Theorem larger_ad_budget_lowers_the_tier g raises req ad_budget' tenants w pool :
  db_pool g = Some pool → raises acquire_141 = false → raises execute_142 = false →
  (onb_revenue_monthly req ≤ 50000)%Z →
  (3 < length (onb_target_countries req))%nat →
  (onb_ad_budget_monthly req ≤ 5000)%Z → (5000 < ad_budget')%Z →
  let req' := mkOnboardingRequest (onb_tenant_id req) (onb_revenue_monthly req) ad_budget'
                (onb_target_countries req) (onb_product_count req) in
  (∃ tenants1,
     (onboarding g raises req tenants w).1
     = Return (mkProfileResponse "enterprise" 990 {[ "videos" := true; "mlops" := true ]}
                 "multi-country", tenants1)) ∧
  (∃ tenants2,
     (onboarding g raises req' tenants w).1
     = Return (mkProfileResponse "pro" 249 {[ "videos" := true; "mlops" := false ]}
                 "ad_budget > 5k", tenants2)).
Proof.
  intros Hp H1 H2 Hrev Hc Had Had'. cbv zeta.
  rewrite !(onboarding_runs _ _ _ _ _ _ Hp H1 H2). cbv zeta.
  unfold select_profile. cbn [onb_revenue_monthly onb_ad_budget_monthly onb_target_countries
                              onb_product_count].
  rewrite (bool_decide_eq_false_2 (50000 < onb_revenue_monthly req)%Z) by lia.
  rewrite (bool_decide_eq_false_2 (5000 < onb_ad_budget_monthly req)%Z) by lia.
  rewrite (bool_decide_eq_true_2 (3 < length (onb_target_countries req))%nat) by lia.
  rewrite (bool_decide_eq_true_2 (5000 < ad_budget')%Z) by lia.
  cbn [fst snd]. rewrite profiles_enterprise, profiles_pro. cbn [price features].
  split; eexists; reflexivity.
Qed.

Lemma larger_ad_budget_lowers_the_tier_witness :
  let req' := mkOnboardingRequest "T1" 20000 6000 ["FR"; "DE"; "ES"; "IT"] 2 in
  (∃ tenants1,
     (onboarding globals_connected onboarding_ok onboarding_T1 [] (world0 store_R1_absent)).1
     = Return (mkProfileResponse "enterprise" 990 {[ "videos" := true; "mlops" := true ]}
                 "multi-country", tenants1)) ∧
  (∃ tenants2,
     (onboarding globals_connected onboarding_ok req' [] (world0 store_R1_absent)).1
     = Return (mkProfileResponse "pro" 249 {[ "videos" := true; "mlops" := false ]}
                 "ad_budget > 5k", tenants2)).
Proof.
  apply (larger_ad_budget_lowers_the_tier globals_connected onboarding_ok onboarding_T1 6000
           [] (world0 store_R1_absent) "postgresql://aegis");
    first [reflexivity | simpl; lia].
Defined.

Lemma filter_fmap_same {A} (P : A → Prop) `{∀ x, Decision (P x)} (h : A → A) (l : list A) :
  (∀ x, P (h x) ↔ P x) → filter P (h <$> l) = h <$> filter P l.
Proof.
  intros Hh. induction l as [|x l IH]; [done|].
  rewrite fmap_cons, !filter_cons.
  destruct (decide (P x)) as [Hx|Hx].
  - rewrite decide_True by (by apply Hh). rewrite fmap_cons. by f_equal.
  - rewrite decide_False by (by rewrite Hh). done.
Qed.

Lemma filter_key_unique {A} (key : A → string) (t : string) (l : list A) x rest :
  NoDup (key <$> l) → filter (λ y, key y = t) l = x :: rest → rest = [].
Proof.
  induction l as [|y l IH]; [done|].
  rewrite fmap_cons, NoDup_cons, filter_cons. intros [Hy Hl].
  destruct (decide (key y = t)) as [Ey|Ny]; [|by apply IH].
  intros [= -> <-].
  destruct (filter (λ y, key y = t) l) as [|z rest'] eqn:Ef; [done|].
  exfalso. apply Hy.
  assert (z ∈ filter (λ y, key y = t) l) as Hz by (rewrite Ef; apply list_elem_of_here).
  apply list_elem_of_filter in Hz as [Hz1 Hz2].
  rewrite Ey, <- Hz1. apply list_elem_of_fmap. by exists z.
Qed.

Lemma has_tenant_rows t tenants :
  has_tenant t tenants = false → filter (λ r, tn_tenant_id r = t) tenants = [].
Proof.
  unfold has_tenant. intros H%bool_decide_eq_false.
  induction tenants as [|row l IH]; [done|].
  rewrite filter_cons. rewrite fmap_cons, not_elem_of_cons in H.
  destruct H as [Hne Hnin]. rewrite decide_False by congruence. by apply IH.
Qed.

Lemma has_tenant_present t tenants :
  has_tenant t tenants = true → filter (λ r, tn_tenant_id r = t) tenants ≠ [].
Proof.
  unfold has_tenant. intros (row & -> & Hin)%bool_decide_eq_true%list_elem_of_fmap Hf.
  assert (row ∈ filter (λ r, tn_tenant_id r = tn_tenant_id row) tenants) as Hrow
    by (by apply list_elem_of_filter).
  rewrite Hf in Hrow. by apply not_elem_of_nil in Hrow.
Qed.

(** X20.  Onboarding a tenant again.  The statement is an upsert on the
    tenant id: whenever [onboarding] returns, tenant ids stay unique, the
    rows of every other tenant are as before, and the store of the
    pipeline is untouched.  A tenant not in the table gets a row with the
    profile of the answer, the revenue and ad budget of the request and
    the time of the call.  A tenant already there keeps its row, of which
    the profile becomes the one of the answer and [updated_at] the time
    of the call, while revenue, ad budget and [created_at] stay the ones
    stored before, whatever the new request says. *)
Theorem onboarding_again_keeps_first_figures g raises req tenants w resp tenants' w' :
  onboarding g raises req tenants w = (Return (resp, tenants'), w') →
  NoDup (tn_tenant_id <$> tenants) →
  NoDup (tn_tenant_id <$> tenants') ∧
  (∀ t, t ≠ onb_tenant_id req →
        filter (λ r, tn_tenant_id r = t) tenants' = filter (λ r, tn_tenant_id r = t) tenants) ∧
  filter (λ r, tn_tenant_id r = onb_tenant_id req) tenants'
  = match filter (λ r, tn_tenant_id r = onb_tenant_id req) tenants with
    | [] => [mkTenantRow (onb_tenant_id req) (pr_profile resp) (onb_revenue_monthly req)
               (onb_ad_budget_monthly req) (clock w) None]
    | old :: _ => [mkTenantRow (onb_tenant_id req) (pr_profile resp) (tn_revenue_monthly old)
                     (tn_ad_budget_monthly old) (tn_created_at old) (Some (clock w))]
    end ∧
  store w' = store w ∧ commits w' = commits w.
Proof.
  intros H Hnd. destruct (onboarding_returns _ _ _ _ _ _ _ _ H) as (-> & -> & Hs & Hc & _).
  cbv zeta. cbn [pr_profile]. set (p := (select_profile req).1).
  split; [|split; [|split; [|done]]].
  - unfold upsert_tenant. destruct (has_tenant _ _) eqn:Eh.
    + rewrite <- list_fmap_compose.
      erewrite list_fmap_ext; [exact Hnd|]. intros _ row _. simpl. by destruct (decide _).
    + rewrite fmap_app. apply NoDup_app. split; [done|]. split; [|apply NoDup_singleton].
      intros t Ht [= ->]%list_elem_of_singleton.
      unfold has_tenant in Eh. by apply bool_decide_eq_false in Eh.
  - intros t Ht. unfold upsert_tenant. destruct (has_tenant _ _) eqn:Eh.
    + rewrite (filter_fmap_same (λ r, tn_tenant_id r = t))
        by (intros row; by destruct (decide _)).
      rewrite <- (list_fmap_id (filter _ tenants)) at 2.
      apply list_fmap_ext. intros i row Hrow%list_elem_of_lookup_2.
      apply list_elem_of_filter in Hrow as [Hrow _].
      rewrite decide_False by congruence. done.
    + rewrite filter_app, filter_cons, filter_nil. cbn [tn_tenant_id].
      rewrite decide_False by congruence. by rewrite app_nil_r.
  - unfold upsert_tenant. destruct (has_tenant _ _) eqn:Eh.
    + pose proof (has_tenant_present _ _ Eh) as Hne.
      destruct (filter (λ r, tn_tenant_id r = onb_tenant_id req) tenants)
        as [|old rest] eqn:Ef; [done|].
      pose proof (filter_key_unique tn_tenant_id _ _ _ _ Hnd Ef) as ->.
      rewrite (filter_fmap_same (λ r, tn_tenant_id r = onb_tenant_id req)).
      * rewrite Ef. cbn [fmap list_fmap].
        assert (old ∈ filter (λ r, tn_tenant_id r = onb_tenant_id req) tenants) as Hold
          by (rewrite Ef; apply list_elem_of_here).
        apply list_elem_of_filter in Hold as [Hold _].
        rewrite decide_True by done. by rewrite Hold.
      * intros row. by destruct (decide _).
    + rewrite (has_tenant_rows _ _ Eh).
      rewrite filter_app, (has_tenant_rows _ _ Eh), filter_cons, filter_nil.
      cbn [tn_tenant_id]. by rewrite decide_True.
Qed.

Lemma onboarding_again_keeps_first_figures_witness :
  let tenants' := [mkTenantRow "T1" "enterprise" 1000 100 0 (Some 7)] in
  NoDup (tn_tenant_id <$> tenants') ∧
  (∀ t, t ≠ "T1" →
        filter (λ r, tn_tenant_id r = t) tenants'
        = filter (λ r, tn_tenant_id r = t) tenants_T1) ∧
  filter (λ r, tn_tenant_id r = "T1") tenants'
  = [mkTenantRow "T1" "enterprise" 1000 100 0 (Some 7)] ∧
  store_R1_absent = store_R1_absent ∧ @nil Store = [].
Proof.
  apply (onboarding_again_keeps_first_figures globals_connected onboarding_ok onboarding_T1
           tenants_T1 (mkWorld store_R1_absent 7 [] [])
           (mkProfileResponse "enterprise" 990 {[ "videos" := true; "mlops" := true ]}
              "multi-country")
           [mkTenantRow "T1" "enterprise" 1000 100 0 (Some 7)]
           (mkWorld store_R1_absent 7
              [mkLog info "onboarding_start" [("tenant_id", VStr "T1")];
               mkLog info "onboarding_complete"
                 [("tenant_id", VStr "T1"); ("profile", VStr "enterprise")]] [])).
  - vm_compute. reflexivity.
  - apply NoDup_singleton.
Defined.

(** ** The manifest endpoint *)

Ltac run_manifest :=
  unfold get_manifest, conn_fetchrow, conn_fetch, db_pool_acquire, read_store, await, raise;
  unfold mbind, M_bind, mret, M_ret; simp_world.

(** X21.  Reading a manifest writes nothing.  Whatever the handles are,
    whichever awaited calls raise and whatever the answer is,
    [get_manifest] leaves the shared store, the clock, the log and the
    committed store contents exactly as they were. *)
Theorem get_manifest_is_read_only g raises tie tenant_id store_id w :
  (get_manifest g raises tie tenant_id store_id w).2 = w.
Proof.
  run_manifest. destruct (db_pool g); simp_world; [|done].
  site raises acquire_205; [done|]. site raises fetchrow_207; [done|].
  destruct (select_latest_run _ _ _ _); simp_world; [|done].
  site raises fetch_222; done.
Qed.

(** What [get_manifest] answers when no awaited call raises. *)
Lemma get_manifest_runs g raises tie tenant_id store_id w pool :
  db_pool g = Some pool → (∀ a, raises a = false) →
  (get_manifest g raises tie tenant_id store_id w).1
  = Return match select_latest_run tie tenant_id store_id (store w) with
           | None => inl (mkHTTPException 404 "No manifest found")
           | Some row =>
               inr (mkManifestResponse (ix_run_id row) (ix_status row) (ix_deploy_ready row)
                      (ix_created_at row) (list_modules (ix_run_id row) (store w)))
           end.
Proof.
  intros Hp Hno. run_manifest. rewrite Hp; simp_world.
  rewrite !Hno; simp_world.
  by destruct (select_latest_run _ _ _ _).
Qed.

Lemma latest_rows_spec tenant_id store_id ix row :
  row ∈ latest_rows tenant_id store_id ix ↔
  row ∈ ix ∧ ix_tenant_id row = tenant_id ∧ ix_store_id row = store_id ∧
  ∀ r', r' ∈ ix → ix_tenant_id r' = tenant_id → ix_store_id r' = store_id →
        (ix_created_at r' ≤ ix_created_at row)%nat.
Proof.
  unfold latest_rows. cbv zeta. rewrite !list_elem_of_filter, Forall_forall.
  split.
  - intros (Hmax & [Ht Hs] & Hin). split; [done|]. split; [done|]. split; [done|].
    intros r' Hr' Ht' Hs'. apply Hmax. by apply list_elem_of_filter.
  - intros (Hin & Ht & Hs & Hmax). split; [|done].
    intros r' [[Ht' Hs'] Hr']%list_elem_of_filter. by apply Hmax.
Qed.

Lemma latest_rows_nonempty tenant_id store_id ix row :
  row ∈ ix → ix_tenant_id row = tenant_id → ix_store_id row = store_id →
  latest_rows tenant_id store_id ix ≠ [].
Proof.
  intros Hin Ht Hs.
  assert (∀ rows : list IndexRow, rows ≠ [] →
            ∃ r, r ∈ rows ∧ Forall (λ r', ix_created_at r' ≤ ix_created_at r)%nat rows) as Hmax.
  { clear. induction rows as [|r rows IH]; [done|]. intros _.
    destruct rows as [|r2 rows].
    - exists r. split; [apply list_elem_of_here|]. by apply Forall_singleton.
    - destruct (IH ltac:(done)) as (m & Hm & Hall).
      destruct (decide (ix_created_at m ≤ ix_created_at r)%nat).
      + exists r. split; [apply list_elem_of_here|]. apply Forall_cons. split; [lia|].
        eapply Forall_impl; [exact Hall|]. simpl. intros; lia.
      + exists m. split; [by apply list_elem_of_further|]. apply Forall_cons. split; [lia|done]. }
  unfold latest_rows. cbv zeta.
  set (rows := filter _ ix).
  assert (rows ≠ []) as Hne.
  { intros Hnil. assert (row ∈ rows) as Hr by (by apply list_elem_of_filter).
    rewrite Hnil in Hr. by apply not_elem_of_nil in Hr. }
  destruct (Hmax rows Hne) as (m & Hm & Hall).
  intros Hnil. assert (m ∈ filter (λ r, Forall (λ r', ix_created_at r' ≤ ix_created_at r)%nat rows) rows)
    as Hin' by (by apply list_elem_of_filter).
  rewrite Hnil in Hin'. by apply not_elem_of_nil in Hin'.
Qed.

Lemma select_latest_run_spec tie tenant_id store_id s :
  match select_latest_run tie tenant_id store_id s with
  | None => ∀ r, r ∈ manifest_v2_index s →
                 ¬ (ix_tenant_id r = tenant_id ∧ ix_store_id r = store_id)
  | Some row => row ∈ latest_rows tenant_id store_id (manifest_v2_index s)
  end.
Proof.
  unfold select_latest_run. cbv zeta.
  set (rows := latest_rows _ _ _).
  destruct (rows !! (tie mod length rows)%nat) as [row|] eqn:E.
  - by eapply list_elem_of_lookup_2.
  - apply lookup_ge_None in E.
    assert (rows = []) as Hnil.
    { destruct rows as [|r rows']; [done|]. exfalso.
      pose proof (Nat.mod_upper_bound tie (length (r :: rows')) ltac:(done)). lia. }
    intros r Hr [Ht Hs]. by apply (latest_rows_nonempty _ _ _ r Hr Ht Hs).
Qed.

(** X22.  What the manifest endpoint answers.  With the pool set and no
    awaited call raising, [get_manifest] answers 404 "No manifest found"
    exactly when the index has no row of the tenant and store.
    Otherwise the answer is read off one row of the index, which is of
    that tenant and store and has the greatest [created_at] among their
    rows, whichever of several the database picks, and its modules are
    the listing of the modules of that row's run id. *)
Theorem get_manifest_answers_latest_run g raises tie tenant_id store_id w pool :
  db_pool g = Some pool → (∀ a, raises a = false) →
  ∃ answer, (get_manifest g raises tie tenant_id store_id w).1 = Return answer ∧
    (answer = inl (mkHTTPException 404 "No manifest found") ↔
       ∀ r, r ∈ manifest_v2_index (store w) →
            ¬ (ix_tenant_id r = tenant_id ∧ ix_store_id r = store_id)) ∧
    ∀ m, answer = inr m →
      ∃ row, row ∈ manifest_v2_index (store w) ∧
        ix_tenant_id row = tenant_id ∧ ix_store_id row = store_id ∧
        (∀ r', r' ∈ manifest_v2_index (store w) →
               ix_tenant_id r' = tenant_id → ix_store_id r' = store_id →
               (ix_created_at r' ≤ ix_created_at row)%nat) ∧
        m = mkManifestResponse (ix_run_id row) (ix_status row) (ix_deploy_ready row)
              (ix_created_at row) (list_modules (ix_run_id row) (store w)).
Proof.
  intros Hp Hno. rewrite (get_manifest_runs _ _ _ _ _ _ _ Hp Hno).
  eexists. split; [reflexivity|].
  pose proof (select_latest_run_spec tie tenant_id store_id (store w)) as Hsel.
  destruct (select_latest_run tie tenant_id store_id (store w)) as [row|].
  - apply latest_rows_spec in Hsel as (Hin & Ht & Hs & Hmax).
    split; [split; [done|]|].
    + intros Hnone. exfalso. by apply (Hnone row Hin).
    + intros m [= <-]. exists row. done.
  - split; [done|]. intros m [=].
Qed.

Lemma get_manifest_answers_latest_run_witness :
  ∃ answer,
    (get_manifest globals_connected manifest_ok 0 "T1" "S1" (world0 store_R1_done_R2_queued)).1
    = Return answer ∧
    (answer = inl (mkHTTPException 404 "No manifest found") ↔
       ∀ r, r ∈ manifest_v2_index store_R1_done_R2_queued →
            ¬ (ix_tenant_id r = "T1" ∧ ix_store_id r = "S1")) ∧
    ∀ m, answer = inr m →
      ∃ row, row ∈ manifest_v2_index store_R1_done_R2_queued ∧
        ix_tenant_id row = "T1" ∧ ix_store_id row = "S1" ∧
        (∀ r', r' ∈ manifest_v2_index store_R1_done_R2_queued →
               ix_tenant_id r' = "T1" → ix_store_id r' = "S1" →
               (ix_created_at r' ≤ ix_created_at row)%nat) ∧
        m = mkManifestResponse (ix_run_id row) (ix_status row) (ix_deploy_ready row)
              (ix_created_at row) (list_modules (ix_run_id row) store_R1_done_R2_queued).
Proof.
  apply (get_manifest_answers_latest_run globals_connected manifest_ok 0 "T1" "S1"
           (world0 store_R1_done_R2_queued) "postgresql://aegis");
    reflexivity.
Defined.

(** ** From the enqueue endpoint to the manifest endpoint *)

(** The row picked when one row of the tenant and store is later than
    all the others. *)
Lemma select_latest_run_newest tie tenant_id store_id s row :
  row ∈ manifest_v2_index s →
  ix_tenant_id row = tenant_id → ix_store_id row = store_id →
  (∀ r, r ∈ manifest_v2_index s → ix_tenant_id r = tenant_id → ix_store_id r = store_id →
        r = row ∨ (ix_created_at r < ix_created_at row)%nat) →
  select_latest_run tie tenant_id store_id s = Some row.
Proof.
  intros Hin Ht Hs Hnew.
  pose proof (select_latest_run_spec tie tenant_id store_id s) as Hsel.
  destruct (select_latest_run tie tenant_id store_id s) as [m|].
  - apply latest_rows_spec in Hsel as (Hm & Hmt & Hms & Hmax).
    destruct (Hnew m Hm Hmt Hms) as [->|Hlt]; [done|].
    pose proof (Hmax row Hin Ht Hs). lia.
  - exfalso. by apply (Hsel row Hin).
Qed.

Lemma run_pipeline_returns g raises uuid req w resp w' :
  run_pipeline g raises uuid req w = (Return resp, w') →
  is_Some (db_pool g) ∧
  has_run uuid (manifest_v2_index (store w)) = false ∧
  manifest_v2_index (store w')
  = (manifest_v2_index (store w) ++
       [mkIndexRow (req_tenant_id req) (req_store_id req) uuid "queued" None (clock w) None])%list ∧
  manifest_v2_modules (store w') = manifest_v2_modules (store w) ∧
  pipeline_queue (store w')
  = match redis_client g with
    | Some _ => mkJob uuid (req_tenant_id req) (req_store_id req) (req_product_data req)
                :: pipeline_queue (store w)
    | None => pipeline_queue (store w)
    end ∧
  clock w' = clock w.
Proof.
  api_cases g raises uuid.
  all: intros [= <- <-]; simp_world.
  all: done.
Qed.

Lemma elem_of_index_new (ix : list IndexRow) row r :
  r ∈ (ix ++ [row])%list → r ∈ ix ∨ r = row.
Proof. rewrite elem_of_app, list_elem_of_singleton. tauto. Qed.

(** X23.  A new run hides the manifest before it.  Once a call of the
    enqueue endpoint has returned for a tenant and store, at a time
    later than the [created_at] of their earlier runs, the manifest
    endpoint answers for them with the new run: status [queued], no
    [deploy_ready], no modules, whatever manifest an earlier run of the
    store had completed. *)
Theorem new_run_hides_previous_manifest g raises uuid req w resp w' tie raises' :
  run_pipeline g raises uuid req w = (Return resp, w') →
  fetch_modules uuid (store w) = [] →
  (∀ r, r ∈ manifest_v2_index (store w) →
        ix_tenant_id r = req_tenant_id req → ix_store_id r = req_store_id req →
        (ix_created_at r < clock w)%nat) →
  (∀ a, raises' a = false) →
  (get_manifest g raises' tie (req_tenant_id req) (req_store_id req) w').1
  = Return (inr (mkManifestResponse uuid "queued" None (clock w) ∅)).
Proof.
  intros Hrun Hms Hlate Hno.
  destruct (run_pipeline_returns _ _ _ _ _ _ _ Hrun) as ([pool Hp] & Hfresh & Hix & Hmod & _).
  rewrite (get_manifest_runs _ _ _ _ _ _ _ Hp Hno).
  set (row := mkIndexRow _ _ _ _ _ _ _) in Hix.
  rewrite (select_latest_run_newest tie _ _ (store w') row).
  - cbn [row ix_run_id ix_status ix_deploy_ready ix_created_at].
    unfold list_modules, fetch_modules in *. by rewrite Hmod, Hms.
  - rewrite Hix. apply elem_of_app. right. apply list_elem_of_here.
  - done.
  - done.
  - intros r Hr Ht Hs. rewrite Hix in Hr.
    apply elem_of_index_new in Hr as [Hr|Hr]; [|by left].
    right. cbn [row ix_created_at]. by apply Hlate.
Qed.

Lemma new_run_hides_previous_manifest_witness :
  (get_manifest globals_connected manifest_ok 0 "T1" "S1"
     (run_pipeline globals_connected api_ok "R3" req_T1_S1
        (mkWorld store_R1_done_R2_queued 9 [] [])).2).1
  = Return (inr (mkManifestResponse "R3" "queued" None 9 ∅)).
Proof.
  apply (new_run_hides_previous_manifest globals_connected api_ok "R3" req_T1_S1
           (mkWorld store_R1_done_R2_queued 9 [] []) (mkResponse "R3" "queued")
           (run_pipeline globals_connected api_ok "R3" req_T1_S1
              (mkWorld store_R1_done_R2_queued 9 [] [])).2 0 manifest_ok).
  - reflexivity.
  - reflexivity.
  - intros r Hr _ _. simpl in Hr.
    apply elem_of_cons in Hr as [->|Hr]; [simpl; lia|].
    apply list_elem_of_singleton in Hr as ->. simpl; lia.
  - reflexivity.
Defined.

Lemma update_where_app r f (ix1 ix2 : list IndexRow) :
  update_where r f (ix1 ++ ix2) = (update_where r f ix1 ++ update_where r f ix2)%list.
Proof. unfold update_where. apply fmap_app. Qed.

Lemma update_where_single r f row :
  ix_run_id row = r → update_where r f [row] = [f row].
Proof. intros H. unfold update_where. cbn. by rewrite decide_True. Qed.

(** One turn of the loop when nothing raises: the job of the rightmost
    message, the run of which has no module yet. *)
Lemma iteration_no_raise raises w q j :
  (∀ a, raises a = false) →
  pipeline_queue (store w) = (q ++ [j])%list →
  fetch_modules (job_run_id j) (store w) = [] →
  store (worker_iteration raises w).2
  = mkStore
      (update_where (job_run_id j) (set_completed true (clock w + 2 + 3 + 5 + 2))
         (update_where (job_run_id j) (set_status "processing" (clock w))
            (manifest_v2_index (store w))))
      (manifest_v2_modules (store w) ++ module_rows j) q.
Proof.
  intros Hno Hq Hms.
  unfold worker_iteration, try_except, redis_brpop, await, pop_right, commit.
  unfold mbind, M_bind, mret, M_ret. rewrite Hno, Hq, reverse_snoc, reverse_involutive.
  simp_world.
  set (w1 := mkWorld _ _ _ _).
  destruct (process_pipeline_job raises j w1) as [res w2] eqn:E.
  destruct (job_no_raise raises j w1 Hno Hms res w2 E) as (-> & Hst & _).
  simp_world. exact Hst.
Qed.

(** X24.  From the enqueue endpoint to the manifest endpoint.  A call of
    the enqueue endpoint returns, with a Redis client, on an empty
    queue, for a run id that has no module, at a time later than the
    earlier runs of the tenant and store; one turn of the worker loop
    follows in which nothing raises.  The manifest endpoint then answers
    for that tenant and store with this run: status [completed],
    [deploy_ready] true, the [created_at] of the enqueue, and the three
    modules audit, decision and deployment with their contents. *)
Theorem enqueued_run_is_served_completed g raises uuid req w resp w' client tie
    raises_w raises_m :
  redis_client g = Some client →
  run_pipeline g raises uuid req w = (Return resp, w') →
  pipeline_queue (store w) = [] →
  fetch_modules uuid (store w) = [] →
  (∀ r, r ∈ manifest_v2_index (store w) →
        ix_tenant_id r = req_tenant_id req → ix_store_id r = req_store_id req →
        (ix_created_at r < clock w)%nat) →
  (∀ a, raises_w a = false) → (∀ a, raises_m a = false) →
  (get_manifest g raises_m tie (req_tenant_id req) (req_store_id req)
     (worker_iteration raises_w w').2).1
  = Return (inr (mkManifestResponse uuid "completed" (Some true) (clock w)
                   (<["deployment" :=
                        deployment_data (req_tenant_id req) (req_store_id req) uuid]>
                      (<["decision" := decision_data true []]>
                         (<["audit" := audit_data]> ∅))))).
Proof.
  intros Hc Hrun Hq Hms Hlate Hnow Hnom.
  destruct (run_pipeline_returns _ _ _ _ _ _ _ Hrun)
    as ([pool Hp] & Hfresh & Hix & Hmod & Hqueue & Hclock).
  rewrite Hc, Hq in Hqueue.
  rewrite (get_manifest_runs _ _ _ _ _ _ _ Hp Hnom).
  set (job := mkJob uuid _ _ _) in Hqueue.
  assert (fetch_modules (job_run_id job) (store w') = []) as Hms'
    by (unfold fetch_modules in *; by rewrite Hmod).
  rewrite (iteration_no_raise raises_w w' [] job Hnow Hqueue Hms').
  pose proof (has_run_rows _ _ Hfresh) as Habs.
  rewrite Hix, Hmod, Hclock. cbn [job job_run_id].
  rewrite !update_where_app, !(update_where_absent _ _ _ Habs).
  rewrite !update_where_single by done.
  unfold set_completed, set_status.
  cbn [ix_tenant_id ix_store_id ix_run_id ix_deploy_ready
       ix_created_at].
  set (row := mkIndexRow _ _ _ "completed" _ _ _).
  rewrite (select_latest_run_newest tie _ _ _ row).
  - cbn [row ix_run_id ix_status ix_deploy_ready ix_created_at].
    unfold list_modules, fetch_modules in *. cbn [manifest_v2_modules].
    rewrite filter_app, Hms. unfold module_rows.
    rewrite !filter_cons, filter_nil. cbn [mod_run_id job_run_id].
    rewrite !decide_True by done. done.
  - cbn [manifest_v2_index]. apply elem_of_app. right. apply list_elem_of_here.
  - done.
  - done.
  - intros r Hr Ht Hs. cbn [manifest_v2_index] in Hr.
    apply elem_of_index_new in Hr as [Hr|Hr]; [|by left].
    right. cbn [row ix_created_at]. by apply Hlate.
Qed.

Lemma enqueued_run_is_served_completed_witness :
  (get_manifest globals_connected manifest_ok 0 "T1" "S1"
     (worker_iteration no_raise
        (run_pipeline globals_connected api_ok "R1" req_T1_S1 (world0 store_R1_absent)).2).2).1
  = Return (inr (mkManifestResponse "R1" "completed" (Some true) 0
                   (<["deployment" := deployment_data "T1" "S1" "R1"]>
                      (<["decision" := decision_data true []]>
                         (<["audit" := audit_data]> ∅))))).
Proof.
  apply (enqueued_run_is_served_completed globals_connected api_ok "R1" req_T1_S1
           (world0 store_R1_absent) (mkResponse "R1" "queued")
           (run_pipeline globals_connected api_ok "R1" req_T1_S1 (world0 store_R1_absent)).2
           "redis://aegis" 0 no_raise manifest_ok).
  - reflexivity.
  - reflexivity.
  - reflexivity.
  - reflexivity.
  - intros r Hr. simpl in Hr. by apply not_elem_of_nil in Hr.
  - reflexivity.
  - reflexivity.
Defined.
